(** * django-shibboleth-remoteuser: attribute parsing, user resolution and
    the per-request authentication flow

    A shallow embedding of [shibboleth/middleware.py] and
    [shibboleth/backends.py].  Python dictionaries are finite maps, the
    attribute mapping is the list its [items()] view iterates over, and
    stateful code threads its state explicitly and returns an [outcome]
    (a value or a raised exception). *)

From Stdlib Require Import Ascii String.
From stdpp Require Import gmap strings list fin_maps pretty.

Open Scope string_scope.
Open Scope list_scope.

(** ** Python values *)

Module Py.

(** The values that travel through the code: [None], booleans and strings. *)
Inductive pyval : Type :=
  | PyNone
  | PyBool (b : bool)
  | PyStr (s : string).

#[global] Instance pyval_eq_dec : EqDecision pyval.
Proof. solve_decision. Defined.

(** Truth value of an object, as tested by [if v] and [not v]. *)
Definition truthy (v : pyval) : bool :=
  match v with
  | PyNone => false
  | PyBool b => b
  | PyStr s => negb (String.eqb s "")
  end.

(** [a == b] on these values. *)
Definition py_eqb (a b : pyval) : bool := bool_decide (a = b).

(** The result of running a piece of code: it returns or it raises. *)
Inductive outcome (E A : Type) : Type :=
  | Ok (a : A)
  | Raise (e : E).
Arguments Ok {E A} a.
Arguments Raise {E A} e.

(** The exceptions the two files raise or let through. *)
Inductive exn : Type :=
  | ImproperlyConfigured
  | ShibbolethValidationError (shib_meta : gmap string pyval)
  | DoesNotExist
  | MultipleObjectsReturned
  | AttributeError
  | UnboundLocalError
  | KeyError.

Definition is_DoesNotExist (e : exn) : bool :=
  match e with DoesNotExist => true | _ => false end.

(** Code that reads and updates a state [S] and returns or raises.  What
    was written before an exception is raised stays written. *)
Definition M (S A : Type) : Type := S → outcome exn A * S.

Definition ret {S A} (a : A) : M S A := λ s, (Ok a, s).
Definition raise {S A} (e : exn) : M S A := λ s, (Raise e, s).
Definition bind {S A B} (m : M S A) (k : A → M S B) : M S B :=
  λ s, match m s with
       | (Ok a, s') => k a s'
       | (Raise e, s') => (Raise e, s')
       end.
Definition modify {S} (f : S → S) : M S unit := λ s, (Ok tt, f s).
Definition gets {S A} (f : S → A) : M S A := λ s, (Ok (f s), s).

(** [try: m except e: handler]: only the named exception is caught. *)
Definition try_except {S A} (m : M S A) (caught : exn → bool) (handler : M S A) : M S A :=
  λ s, match m s with
       | (Raise e, s') => if caught e then handler s' else (Raise e, s')
       | r => r
       end.

#[global] Instance M_ret {S} : MRet (M S) := λ A, @ret S A.
#[global] Instance M_bind {S} : MBind (M S) := λ A B k m, @bind S A B m k.

End Py.

Import Py.

(** ** The attribute mapper: [parse_attributes] *)

Module Mapper.

(** One item of [SHIB_ATTRIBUTE_MAP.items()]:
    [header, (required, name)]. *)
Definition entry : Type := string * (bool * string).

Definition entry_header (e : entry) : string := e.1.
Definition entry_required (e : entry) : bool := e.2.1.
Definition entry_name (e : entry) : string := e.2.2.

(** [meta.get(header, None)]: the header set holds strings. *)
Definition meta_get (meta : gmap string string) (header : string) : pyval :=
  match meta !! header with
  | Some s => PyStr s
  | None => PyNone
  end.

(** The test [not value or value == '']. *)
Definition absent (value : pyval) : bool :=
  negb (truthy value) || py_eqb value (PyStr "").

(** The body of the [for] loop, on the pair [(shib_attrs, error)]. *)
Definition parse_step (meta : gmap string string)
    (acc : gmap string pyval * bool) (e : entry) : gmap string pyval * bool :=
  let '(shib_attrs, error) := acc in
  let '(header, (required, name)) := e in
  let value := meta_get meta header in
  let shib_attrs := <[name := value]> shib_attrs in
  let error := if absent value then (if required then true else error) else error in
  (shib_attrs, error).

Definition parse_loop (meta : gmap string string) (items : list entry)
    (acc : gmap string pyval * bool) : gmap string pyval * bool :=
  fold_left (parse_step meta) items acc.

Definition parse_attributes (SHIB_ATTRIBUTE_MAP : list entry)
    (meta : gmap string string) : gmap string pyval * bool :=
  parse_loop meta SHIB_ATTRIBUTE_MAP (∅, false).

(** The canonical names of a mapping. *)
Definition canonical_names (items : list entry) : gset string :=
  list_to_set (entry_name <$> items).

(** A header counts as absent when it is missing or holds the empty string. *)
Definition header_absent (meta : gmap string string) (header : string) : Prop :=
  meta !! header = None ∨ meta !! header = Some "".

End Mapper.

(** ** The user resolver: [ShibbolethRemoteUserBackend] *)

Module Backend.

(** A model instance: its primary key and its instance dictionary. *)
Record user : Type := User { pk : nat; attrs : gmap string pyval }.

#[global] Instance user_eq_dec : EqDecision user.
Proof. solve_decision. Defined.

(** What the resolver does to the outside world, in order. *)
Inductive event : Type :=
  | EvInsert (u : user)
  | EvSave (u : user)
  | EvSetUnusablePassword (u : user)
  | EvConfigureUser (u : user).

(** The user table and the log of what was done to it. *)
Record store : Type := Store { rows : list user; log : list event }.

Definition emit (e : event) : M store unit :=
  modify (λ s, Store (rows s) (log s ++ [e])).

(** *** The storage collaborator: [User.objects] and [user.save()]

    The framework's manager and [save], as far as the resolver uses
    them: lookup by user name, find-or-create, and saving an instance
    under its primary key.  Constraints of the table are not modelled. *)

Definition has_username (username : string) (u : user) : Prop :=
  attrs u !! "username" = Some (PyStr username).

#[global] Instance has_username_dec username u : Decision (has_username username u).
Proof. unfold has_username. apply _. Defined.

(** [User.objects.get(username=username)] *)
Definition objects_get (username : string) : M store user :=
  λ s, match filter (has_username username) (rows s) with
       | [] => (Raise DoesNotExist, s)
       | [u] => (Ok u, s)
       | _ => (Raise MultipleObjectsReturned, s)
       end.

Definition fresh_pk (rs : list user) : nat := S (foldr max 0 (pk <$> rs)).

(** [User.objects.create] on the given parameters: fields that are not given take the
    model's defaults. *)
Definition objects_create (model_defaults params : gmap string pyval) : M store user :=
  λ s, let u := User (fresh_pk (rows s)) (params ∪ model_defaults) in
       (Ok u, Store (rows s ++ [u]) (log s ++ [EvInsert u])).

(** [User.objects.get_or_create(username=username, defaults=defaults)]:
    the lookup, and on a miss a creation from the lookup updated with the
    defaults. *)
Definition objects_get_or_create (model_defaults : gmap string pyval)
    (username : string) (defaults : gmap string pyval) : M store (user * bool) :=
  try_except
    (u ← objects_get username; ret (u, false))
    is_DoesNotExist
    (u ← objects_create model_defaults (defaults ∪ {[ "username" := PyStr username ]});
     ret (u, true)).

(** The instance that a creation inserts. *)
Definition created_user (model_defaults : gmap string pyval) (username : string)
    (defaults : gmap string pyval) (s : store) : user :=
  User (fresh_pk (rows s))
       ((defaults ∪ {[ "username" := PyStr username ]}) ∪ model_defaults).

Definition write_row (u : user) (rs : list user) : list user :=
  if bool_decide (pk u ∈ (pk <$> rs))
  then (λ r, if bool_decide (pk r = pk u) then u else r) <$> rs
  else rs ++ [u].

(** [user.save()] *)
Definition save (u : user) : M store unit :=
  modify (λ s, Store (write_row u (rows s)) (log s ++ [EvSave u])).

(** [user.set_unusable_password()]: the stored password becomes a value
    that no password hashes to. *)
Definition UNUSABLE_PASSWORD : string := "!".

(** The instance with its password replaced by the unusable one. *)
Definition marked (u : user) : user :=
  User (pk u) (<["password" := PyStr UNUSABLE_PASSWORD]> (attrs u)).

Definition set_unusable_password (u : user) : M store user :=
  emit (EvSetUnusablePassword u) ;;
  ret (marked u).

(** [user.has_usable_password()]: a password is usable unless it is a
    string that starts with the unusable mark; [None] counts as usable. *)
Definition has_usable_password (u : user) : bool :=
  match attrs u !! "password" with
  | Some (PyStr p) => negb (String.prefix UNUSABLE_PASSWORD p)
  | _ => true
  end.

(** [user_can_authenticate]: [is_active or is_active is None], with
    [getattr(user, 'is_active', None)]. *)
Definition user_can_authenticate (u : user) : bool :=
  match attrs u !! "is_active" with
  | None | Some PyNone => true
  | Some v => truthy v
  end.

(** [getattr(user, k)] *)
Definition getattr (u : user) (k : string) : M store pyval :=
  match attrs u !! k with
  | Some v => ret v
  | None => raise AttributeError
  end.

(** [dict(pairs)]: a later pair replaces an earlier one with the same key. *)
Definition py_dict (pairs : list (string * pyval)) : gmap string pyval :=
  fold_left (λ d p, <[p.1 := p.2]> d) pairs ∅.

(** [min] of a non-empty list of booleans. *)
Definition py_min (flags : list bool) : bool := foldr andb true flags.

(** [getattr(user, k) == v] for an item [(k, v)] of the parameters. *)
Definition agrees (user : user) (kv : string * pyval) : bool :=
  bool_decide (attrs user !! kv.1 = Some kv.2).

Fixpoint mapM {S A B} (f : A → M S B) (l : list A) : M S (list B) :=
  match l with
  | [] => ret []
  | x :: l => y ← f x; ys ← mapM f l; ret (y :: ys)
  end.

Section backend.

(** The class attribute [create_unknown_user]. *)
Variable create_unknown_user : bool.
(** [[x.name for x in self.User._meta.get_fields()]] *)
Variable field_names : list string.
(** The inherited [clean_username] and [configure_user] hooks. *)
Variable clean_username : string → string.
Variable configure_user : user → user.
(** What a new instance holds in the fields it was not given. *)
Variable model_defaults : gmap string pyval.

(** [update_user_params(user, params)]; the instance is updated in
    place, so the updated instance is handed back.  The primary key is
    held apart from the instance dictionary: the definition follows the
    code for parameters that do not name the primary-key field. *)
Definition update_user_params (user : user) (params : gmap string pyval) : M store Backend.user :=
  if (0 <? size params)%nat then
    flags ← mapM (λ kv, cur ← getattr user kv.1; ret (py_eqb cur kv.2)) (map_to_list params);
    if negb (py_min flags) then
      let user := User (pk user) (params ∪ attrs user) in
      save user ;;
      ret user
    else ret user
  else ret user.

(** [handle_created_user(request, user)] *)
Definition handle_created_user (user : user) : M store Backend.user :=
  user ← set_unusable_password user;
  save user ;;
  emit (EvConfigureUser user) ;;
  ret (configure_user user).

(** [setup_user(request, username, defaults)] *)
Definition setup_user (username : string) (defaults : gmap string pyval)
    : M store (option Backend.user) :=
  if create_unknown_user then
    '(user, created) ← objects_get_or_create model_defaults username defaults;
    user ← (if created : bool then handle_created_user user else ret user);
    ret (Some user)
  else
    try_except
      (user ← objects_get username; ret (Some user))
      is_DoesNotExist
      (ret None).

(** [dict([(k, shib_meta[k]) for k in field_names if k in shib_meta])] *)
Definition known_fields (shib_meta : gmap string pyval) : gmap string pyval :=
  py_dict (omap (λ k, (λ v, (k, v)) <$> shib_meta !! k) field_names).

(** The [for field_name in field_names] loop: every iteration assigns
    the same dictionary; without an iteration the name stays unbound. *)
Definition shib_user_params_loop (shib_meta : gmap string pyval)
    : option (gmap string pyval) :=
  fold_left (λ _ _, Some (known_fields shib_meta)) field_names None.

(** [authenticate(request, remote_user, shib_meta)] *)
Definition authenticate (remote_user : string) (shib_meta : gmap string pyval)
    : M store (option Backend.user) :=
  if negb (truthy (PyStr remote_user)) then ret None
  else
    let username := clean_username remote_user in
    match shib_user_params_loop shib_meta with
    | None => raise UnboundLocalError
    | Some shib_user_params =>
        user ← setup_user username shib_user_params;
        match user with
        | Some user =>
            user ← update_user_params user shib_user_params;
            ret (if user_can_authenticate user then Some user else None)
        | None => ret None
        end
    end.

End backend.

End Backend.

(** ** The authentication orchestrator: [ShibbolethRemoteUserMiddleware] *)

Module Middleware.

(** [request.user]: the anonymous user or a model instance. *)
Inductive request_user : Type :=
  | AnonymousUser
  | AuthUser (u : Backend.user).

(** Session values: plain values and the stored attribute dictionary. *)
Inductive sessval : Type :=
  | SVal (v : pyval)
  | SDict (d : gmap string pyval).

#[global] Instance request_user_eq_dec : EqDecision request_user.
Proof. solve_decision. Defined.

#[global] Instance sessval_eq_dec : EqDecision sessval.
Proof. solve_decision. Defined.

(** The request: its header set, its session and, when the
    authentication middleware ran before this one, its [user] attribute. *)
Record request : Type := Request {
  META : gmap string string;
  session : gmap string sessval;
  user : option request_user
}.

(** The steps of [process_request] that reach beyond the request. *)
Inductive event : Type :=
  | EvRemoveInvalidUser
  | EvParseAttributes
  | EvSessionSet (key : string) (v : sessval)
  | EvAuthenticate (remote_user : string) (shib_meta : gmap string pyval)
  | EvLogin (u : Backend.user)
  | EvMakeProfile (u : Backend.user)
  | EvSetupSession.

Record state : Type := State {
  req : request;
  db : Backend.store;
  trace : list event
}.

Definition set_req (r : request) (st : state) : state :=
  State r (db st) (trace st).
Definition set_session (s : gmap string sessval) (r : request) : request :=
  Request (META r) s (user r).
Definition set_user (u : request_user) (r : request) : request :=
  Request (META r) (session r) (Some u).
Definition set_META (m : gmap string string) (r : request) : request :=
  Request m (session r) (user r).

(** The state after [request.session.pop(LOGOUT_SESSION_KEY, None)]. *)
Definition popped (LOGOUT_SESSION_KEY : string) (st : state) : state :=
  set_req (set_session (delete LOGOUT_SESSION_KEY (session (req st))) (req st)) st.

(** The state after [request.session['shib'] = shib_meta], reached
    through the call of [parse_attributes]. *)
Definition stored (shib_meta : gmap string pyval) (st : state) : state :=
  State (set_session (<["shib" := SDict shib_meta]> (session (req st))) (req st))
        (db st)
        (trace st ++ [EvParseAttributes; EvSessionSet "shib" (SDict shib_meta)]).

Definition emit (e : event) : M state unit :=
  modify (λ st, State (req st) (db st) (trace st ++ [e])).

(** [request.user.is_authenticated] *)
Definition is_authenticated (u : request_user) : bool :=
  match u with
  | AnonymousUser => false
  | AuthUser _ => true
  end.

(** [request.user.get_username()], asked of an authenticated user only. *)
Definition get_username (u : request_user) : option pyval :=
  match u with
  | AnonymousUser => Some (PyStr "")
  | AuthUser u => Backend.attrs u !! "username"
  end.

(** The stubs [make_profile] and [setup_session]. *)
Definition make_profile (user : Backend.user) (shib_meta : gmap string pyval) : M state unit :=
  ret tt.
Definition setup_session : M state unit := ret tt.

Section middleware.

(** The settings read from [shibboleth.app_settings]. *)
Variable SHIB_ATTRIBUTE_MAP : list Mapper.entry.
Variable LOGOUT_SESSION_KEY : string.
(** The inherited [header] attribute and [clean_username] and
    [_remove_invalid_user] methods; [auth.authenticate], [auth.login].
    [clean_username] reads the request and may raise; [auth.login] may
    write to the request and to the user table, and may raise. *)
Variable header : string.
Variable clean_username : string → request → outcome exn string.
Variable _remove_invalid_user : request → request.
Variable auth_authenticate :
  request → string → gmap string pyval → M Backend.store (option Backend.user).
Variable auth_login : Backend.user → M (request * Backend.store) unit.

(** [self.parse_attributes(request)] *)
Definition parse_attributes (request : request) : gmap string pyval * bool :=
  Mapper.parse_attributes SHIB_ATTRIBUTE_MAP (META request).

(** Lines 18 to 60 of [process_request], up to the attribute
    extraction: [None] where the method returns, the remote user name
    where it goes on. *)
Definition locate_remote_user : M state (option string) := λ st,
  match user (req st) with
  | None => (Raise ImproperlyConfigured, st)
  | Some request_user =>
      if bool_decide (session (req st) !! LOGOUT_SESSION_KEY = Some (SVal (PyBool true)))
      then (Ok None, st)
      else
        let request := set_session (delete LOGOUT_SESSION_KEY (session (req st))) (req st) in
        let st := set_req request st in
        match META request !! header with
        | None => (Ok None, st)
        | Some username =>
            if negb (truthy (PyStr username)) then (Ok None, st)
            else if is_authenticated request_user then
              match get_username request_user with
              | None => (Raise AttributeError, st)
              | Some name =>
                  match clean_username username request with
                  | Raise e => (Raise e, st)
                  | Ok cleaned =>
                      if py_eqb name (PyStr cleaned)
                      then (Ok None, st)
                      else (Ok (Some username),
                            State (_remove_invalid_user request) (db st)
                                  (trace st ++ [EvRemoveInvalidUser]))
                  end
              end
            else (Ok (Some username), st)
        end
  end.

(** [request.session['shib'] = shib_meta] *)
Definition store_shib (shib_meta : gmap string pyval) : M state unit :=
  modify (λ st, State (set_session (<["shib" := SDict shib_meta]> (session (req st))) (req st))
                      (db st)
                      (trace st ++ [EvSessionSet "shib" (SDict shib_meta)])).

(** [auth.authenticate(request, remote_user=username, shib_meta=shib_meta)] *)
Definition call_authenticate (username : string) (shib_meta : gmap string pyval)
    : M state (option Backend.user) := λ st,
  let '(r, db') := auth_authenticate (req st) username shib_meta (db st) in
  (r, State (req st) db' (trace st ++ [EvAuthenticate username shib_meta])).

(** [request.user = user] and [auth.login(request, user)] *)
Definition login (user : Backend.user) : M state unit := λ st,
  let '(r, (request, db')) := auth_login user (set_user (AuthUser user) (req st), db st) in
  (r, State request db' (trace st ++ [EvLogin user])).

(** Lines 63 to 82 of [process_request]. *)
Definition extract_and_authenticate (username : string) : M state unit :=
  emit EvParseAttributes ;;
  '(shib_meta, error) ← gets (λ st, parse_attributes (req st));
  store_shib shib_meta ;;
  if error : bool then raise (ShibbolethValidationError shib_meta)
  else
    user ← call_authenticate username shib_meta;
    match user with
    | Some user =>
        login user ;;
        emit (EvMakeProfile user) ;;
        make_profile user shib_meta ;;
        emit EvSetupSession ;;
        setup_session
    | None => ret tt
    end.

Definition process_request : M state unit :=
  remote ← locate_remote_user;
  match remote with
  | None => ret tt
  | Some username => extract_and_authenticate username
  end.

(** Successive requests of one browser session: each brings its own
    header set; the session, the attached user and the user table are
    carried over. *)
Fixpoint serve (metas : list (gmap string string)) (st : state)
    : list (outcome exn unit) * state :=
  match metas with
  | [] => ([], st)
  | meta :: metas =>
      let '(r, st) := process_request (set_req (set_META meta (req st)) st) in
      let '(rs, st) := serve metas st in
      (r :: rs, st)
  end.

End middleware.

End Middleware.

(** ** The test configuration: [testsettings.py] *)

Module Testsettings.

(** [SHIBBOLETH_ATTRIBUTE_MAP.items()]; the dictionary display names
    [Shibboleth-mail] twice with the same value, which leaves one item. *)
Definition SHIBBOLETH_ATTRIBUTE_MAP : list Mapper.entry :=
  [ ("Shib-Identity-Provider", (true, "idp"));
    ("Shibboleth-mail", (true, "email"));
    ("Shibboleth-eppn", (true, "username"));
    ("Shibboleth-schoolStatus", (true, "status"));
    ("Shibboleth-affiliation", (true, "affiliation"));
    ("Shib-Session-ID", (true, "session_id"));
    ("Shibboleth-givenName", (true, "first_name"));
    ("Shibboleth-sn", (true, "last_name"));
    ("Shibboleth-schoolBarCode", (false, "barcode")) ].

End Testsettings.

(** ** A deployment's cleaning policy *)

Module Policy.

(** Lower-casing, as a [clean_username] that a deployment may install. *)
Definition lower_ascii (c : ascii) : ascii :=
  let n := nat_of_ascii c in
  if (65 <=? n)%nat && (n <=? 90)%nat then ascii_of_nat (n + 32) else c.

Fixpoint lower (s : string) : string :=
  match s with
  | EmptyString => EmptyString
  | String c s => String (lower_ascii c) (lower s)
  end.

End Policy.

(** ** The framework calls, as the examples use them *)

Module Django.

Import Middleware.

(** [auth.logout], which [_remove_invalid_user] runs for a remote-user
    backend: the session is flushed and the user becomes anonymous. *)
Definition _remove_invalid_user (r : request) : request :=
  Request (META r) ∅ (Some AnonymousUser).

(** The inherited [clean_username(username, request)]: the backend named
    in the session cleans the name; without that session key the lookup
    raises [KeyError]. *)
Definition clean_username (backend_clean : string → string)
    (username : string) (r : request) : outcome exn string :=
  match session r !! "_auth_user_backend" with
  | None => Raise KeyError
  | Some _ => Ok (backend_clean username)
  end.

Definition BACKEND : string := "shibboleth.backends.ShibbolethRemoteUserBackend".

(** Stands for [user.get_session_auth_hash()], a keyed hash of the stored
    password. *)
Definition session_auth_hash (u : Backend.user) : string :=
  match Backend.attrs u !! "password" with
  | Some (PyStr p) => p
  | _ => ""
  end.

(** The keys that a login leaves in the session. *)
Definition login_keys (u : Backend.user) (s : gmap string sessval) : gmap string sessval :=
  <["_auth_user_hash" := SVal (PyStr (session_auth_hash u))]>
    (<["_auth_user_backend" := SVal (PyStr BACKEND)]>
       (<["_auth_user_id" := SVal (PyStr (pretty (Backend.pk u)))]> s)).

(** [auth.login]: a session of another user, or with another hash, is
    flushed; the session keys are set; the user is put on the request;
    and the receiver of [user_logged_in] stamps [last_login] and saves
    the user.  The rotation of the CSRF token, which touches no header
    that the middleware reads, is left out. *)
Definition auth_login (now : string) (u : Backend.user)
    : M (request * Backend.store) unit := λ '(r, d),
  let kept :=
    match session r !! "_auth_user_id" with
    | Some id =>
        if bool_decide (id = SVal (PyStr (pretty (Backend.pk u))))
           && bool_decide (session r !! "_auth_user_hash"
                           = Some (SVal (PyStr (session_auth_hash u))))
        then session r else ∅
    | None => session r
    end in
  let u := Backend.User (Backend.pk u) (<["last_login" := PyStr now]> (Backend.attrs u)) in
  let '(_, d) := Backend.save u d in
  (Ok tt, (Request (META r) (login_keys u kept) (Some (AuthUser u)), d)).

(** [auth.authenticate] with the one configured backend. *)
Definition auth_authenticate (create_unknown_user : bool) (field_names : list string)
    (clean_username : string → string) (r : request)
    (remote_user : string) (shib_meta : gmap string pyval)
    : M Backend.store (option Backend.user) :=
  Backend.authenticate create_unknown_user field_names clean_username id ∅
    remote_user shib_meta.

(** The time of the requests in the examples. *)
Definition NOW : string := "2026-01-01T00:00:00".

(** The field names of the user model that the examples use. *)
Definition fields : list string := ["username"; "email"; "first_name"; "last_name"].

(** The middleware of a deployment with the test configuration, for a
    backend that cleans user names with [backend_clean]. *)
Definition process_request (backend_clean : string → string) : M state unit :=
  Middleware.process_request
    Testsettings.SHIBBOLETH_ATTRIBUTE_MAP "shib_force_reauth" "REMOTE_USER"
    (clean_username backend_clean) _remove_invalid_user
    (auth_authenticate true fields backend_clean)
    (auth_login NOW).

End Django.

(** ** Requests of a deployment with the test configuration *)

Module Scenarios.

Import Middleware.

Definition u1 : Backend.user := Backend.User 1 {[ "username" := PyStr "u1" ]}.
Definition alice : Backend.user := Backend.User 1 {[ "username" := PyStr "Alice" ]}.

(** After a logout: the flag is set and the proxy still sends the user. *)
Definition logged_out (ru : option request_user) : state :=
  State (Request {[ "REMOTE_USER" := "u1" ]}
                 {[ "shib_force_reauth" := SVal (PyBool true) ]} ru)
        (Backend.Store [u1] []) [].


(** [Alice] is logged in under a lower-casing policy. *)
Definition mixed_case : state :=
  State (Request {[ "REMOTE_USER" := "Alice" ]} (Django.login_keys alice ∅)
                 (Some (AuthUser alice)))
        (Backend.Store [alice] []) [].

(** An anonymous request with the remote user and nothing else. *)
Definition bare_remote_user : state :=
  State (Request {[ "REMOTE_USER" := "u1" ]} ∅ (Some AnonymousUser))
        (Backend.Store [u1] []) [].

(** Every mapped header present, no record of the user yet. *)
Definition all_headers : gmap string string :=
  list_to_map
    [ ("REMOTE_USER", "u1@example.edu");
      ("Shib-Identity-Provider", "https://idp.example");
      ("Shibboleth-mail", "u1@example.edu");
      ("Shibboleth-eppn", "u1@example.edu");
      ("Shibboleth-schoolStatus", "active");
      ("Shibboleth-affiliation", "member");
      ("Shib-Session-ID", "_5f3c");
      ("Shibboleth-givenName", "U");
      ("Shibboleth-sn", "One");
      ("Shibboleth-schoolBarCode", "21234") ].

Definition first_login : state :=
  State (Request all_headers ∅ (Some AnonymousUser)) (Backend.Store [] []) [].

(** The values of the first login with the complete header set. *)
Definition first_meta : gmap string pyval :=
  (Mapper.parse_attributes Testsettings.SHIBBOLETH_ATTRIBUTE_MAP (META (req first_login))).1.
Definition first_user : Backend.user :=
  Backend.marked (Backend.created_user ∅ "u1@example.edu"
                    (Backend.known_fields Django.fields first_meta) (Backend.Store [] [])).
Definition first_db : Backend.store :=
  (Django.auth_authenticate true Django.fields id (req (stored first_meta first_login))
     "u1@example.edu" first_meta (db first_login)).2.
Definition first_entered : request * Backend.store :=
  (Django.auth_login Django.NOW first_user
     (set_user (AuthUser first_user) (req (stored first_meta first_login)), first_db)).2.

End Scenarios.

(** * Properties *)

(** ** Python values *)

Module PyFacts.

Lemma truthy_str s : truthy (PyStr s) = false ↔ s = "".
Proof.
  simpl. destruct (String.eqb_spec s ""); simpl; split; congruence.
Qed.

Lemma py_eqb_eq a b : py_eqb a b = true ↔ a = b.
Proof. unfold py_eqb. apply bool_decide_eq_true. Qed.

Lemma py_eqb_refl a : py_eqb a a = true.
Proof. by apply py_eqb_eq. Qed.

Lemma py_eqb_neq a b : py_eqb a b = false ↔ a ≠ b.
Proof. unfold py_eqb. apply bool_decide_eq_false. Qed.

(** Running a bind: the first computation, then the rest on its result. *)
Lemma run_bind {S A B} (m : M S A) (k : A → M S B) s :
  (m ≫= k) s = match m s with
               | (Ok a, s') => k a s'
               | (Raise e, s') => (Raise e, s')
               end.
Proof. reflexivity. Qed.

Lemma run_bind_ok {S A B} (m : M S A) (k : A → M S B) s a s' :
  m s = (Ok a, s') → (m ≫= k) s = k a s'.
Proof. intros H. by rewrite run_bind, H. Qed.

Lemma run_bind_raise {S A B} (m : M S A) (k : A → M S B) s e s' :
  m s = (Raise e, s') → (m ≫= k) s = (Raise e, s').
Proof. intros H. by rewrite run_bind, H. Qed.

End PyFacts.

(** ** The attribute mapper *)

Module MapperFacts.

Import Mapper PyFacts.

Lemma absent_meta_get meta header :
  absent (meta_get meta header) = true ↔ header_absent meta header.
Proof.
  unfold absent, meta_get, header_absent.
  destruct (meta !! header) as [s|] eqn:E; simpl.
  - destruct (String.eqb_spec s "") as [->|Hne]; simpl.
    + split; [by right | done].
    + split.
      * intros H. apply py_eqb_eq in H. congruence.
      * intros [?|?]; congruence.
  - split; [by left | done].
Qed.

Lemma parse_loop_app meta xs ys acc :
  parse_loop meta (xs ++ ys) acc = parse_loop meta ys (parse_loop meta xs acc).
Proof. unfold parse_loop. apply fold_left_app. Qed.

(** The flag is sticky: no iteration turns [true] back into [false]. *)
Lemma parse_step_sticky meta attrs e :
  (parse_step meta (attrs, true) e).2 = true.
Proof.
  destruct e as [header [required name]]. simpl.
  destruct (absent _), required; reflexivity.
Qed.

Lemma parse_loop_sticky meta items attrs :
  (parse_loop meta items (attrs, true)).2 = true.
Proof.
  revert attrs. induction items as [|e items IH]; intros attrs; [done|].
  unfold parse_loop in *. cbn [fold_left].
  pose proof (parse_step_sticky meta attrs e) as Hs.
  destruct (parse_step meta (attrs, true) e) as [attrs' b]. simpl in Hs.
  subst b. apply IH.
Qed.

(** What the loop computes for the flag. *)
Lemma parse_loop_error meta items attrs error :
  (parse_loop meta items (attrs, error)).2 = true ↔
  error = true ∨
  ∃ e, e ∈ items ∧ entry_required e = true ∧ header_absent meta (entry_header e).
Proof.
  revert attrs error. induction items as [|e items IH]; intros attrs error.
  - simpl. split; [by left|]. intros [?|(e & He & _)]; [done|].
    by apply elem_of_nil in He.
  - unfold parse_loop in *. simpl.
    destruct e as [header [required name]]. simpl.
    rewrite IH. clear IH.
    pose proof (absent_meta_get meta header) as Habs.
    split.
    + intros [H|(e & He & Hr & Ha)].
      * destruct (absent (meta_get meta header)) eqn:Ea.
        -- destruct required eqn:Er; [|by left].
           right. exists (header, (true, name)). split_and!; [left|done|].
           by apply Habs.
        -- by left.
      * right. exists e. split_and!; [by right|done..].
    + intros [->|(e & He & Hr & Ha)].
      * left. destruct (absent _), required; reflexivity.
      * apply elem_of_cons in He as [->|He].
        -- unfold entry_required, entry_header in Hr, Ha. simpl in Hr, Ha.
           subst required. apply Habs in Ha. rewrite Ha. by left.
        -- right. exists e. done.
Qed.

(** What the loop computes for the key set. *)
Lemma parse_loop_dom meta items attrs error :
  dom (parse_loop meta items (attrs, error)).1 = dom attrs ∪ canonical_names items.
Proof.
  revert attrs error. induction items as [|e items IH]; intros attrs error.
  - unfold canonical_names. simpl. by rewrite (right_id_L ∅ (∪)).
  - unfold parse_loop in *. cbn [fold_left].
    destruct e as [header [required name]]. cbn [parse_step].
    rewrite IH, dom_insert_L.
    unfold canonical_names. rewrite fmap_cons, list_to_set_cons.
    unfold entry_name at 2. cbn [snd].
    rewrite (comm_L (∪) {[name]} (dom attrs)).
    by rewrite (assoc_L (∪)).
Qed.

Lemma parse_loop_dom_empty (items : list entry) meta :
  dom (parse_attributes items meta).1 = canonical_names items.
Proof.
  unfold parse_attributes. rewrite parse_loop_dom, dom_empty_L.
  by rewrite (left_id_L ∅ (∪)).
Qed.

(** Keys that no remaining item names keep their value. *)
Lemma parse_loop_lookup_other meta items acc k :
  k ∉ (entry_name <$> items) →
  (parse_loop meta items acc).1 !! k = acc.1 !! k.
Proof.
  revert acc. induction items as [|e items IH]; intros acc Hk; [done|].
  unfold parse_loop in *. cbn [fold_left].
  rewrite fmap_cons in Hk. apply not_elem_of_cons in Hk as [Hne Hk].
  rewrite IH by done.
  destruct acc as [attrs error], e as [header [required name]].
  unfold entry_name in Hne. simpl in *.
  by rewrite lookup_insert_ne.
Qed.

(** With pairwise distinct canonical names every item decides the value
    stored under its own name. *)
Lemma parse_attributes_lookup (SHIB_ATTRIBUTE_MAP : list entry) meta e :
  NoDup (entry_name <$> SHIB_ATTRIBUTE_MAP) →
  e ∈ SHIB_ATTRIBUTE_MAP →
  (parse_attributes SHIB_ATTRIBUTE_MAP meta).1 !! entry_name e
  = Some (meta_get meta (entry_header e)).
Proof.
  intros Hnd He.
  apply list_elem_of_split in He as (xs & ys & ->).
  rewrite fmap_app, fmap_cons in Hnd.
  apply NoDup_app in Hnd as (_ & _ & Hnd).
  apply NoDup_cons in Hnd as [Hfresh _].
  unfold parse_attributes. rewrite parse_loop_app.
  destruct (parse_loop meta xs (∅, false)) as [attrs error].
  change (parse_loop meta (e :: ys) (attrs, error))
    with (parse_loop meta ys (parse_step meta (attrs, error) e)).
  rewrite parse_loop_lookup_other by exact Hfresh.
  destruct e as [header [required name]]. simpl.
  by rewrite lookup_insert_eq.
Qed.

(** C1: [parse_attributes] reports a failed validation exactly when some
    required item of the mapping has its header missing or empty; when
    every required header holds a non-empty value the flag is [false],
    whatever the optional headers are; and a flag that is [true] after
    some of the items is [true] at the end of the call. *)
Theorem C1_validation_failed_iff_required_absent
    (SHIB_ATTRIBUTE_MAP : list entry) (meta : gmap string string) :
  ((parse_attributes SHIB_ATTRIBUTE_MAP meta).2 = true ↔
     ∃ e, e ∈ SHIB_ATTRIBUTE_MAP ∧ entry_required e = true ∧
          header_absent meta (entry_header e))
  ∧ ((∀ e, e ∈ SHIB_ATTRIBUTE_MAP → entry_required e = true →
        ∃ s, meta !! entry_header e = Some s ∧ s ≠ "") →
     (parse_attributes SHIB_ATTRIBUTE_MAP meta).2 = false)
  ∧ (∀ (done todo : list entry) attrs,
       SHIB_ATTRIBUTE_MAP = done ++ todo →
       parse_loop meta done (∅, false) = (attrs, true) →
       (parse_attributes SHIB_ATTRIBUTE_MAP meta).2 = true).
Proof.
  assert (Hiff : (parse_attributes SHIB_ATTRIBUTE_MAP meta).2 = true ↔
     ∃ e, e ∈ SHIB_ATTRIBUTE_MAP ∧ entry_required e = true ∧
          header_absent meta (entry_header e)).
  { unfold parse_attributes. rewrite parse_loop_error.
    split; [intros [?|?]; [done|assumption] | by right]. }
  split_and!.
  - exact Hiff.
  - intros Hall. apply not_true_is_false. intros Ht.
    apply Hiff in Ht as (e & He & Hr & Ha).
    destruct (Hall e He Hr) as (s & Hs & Hne).
    destruct Ha as [Ha|Ha]; congruence.
  - intros done todo attrs -> Hdone.
    unfold parse_attributes. rewrite parse_loop_app, Hdone.
    apply parse_loop_sticky.
Qed.

(** C2: for every header set, the keys of the dictionary returned by
    [parse_attributes] are exactly the canonical names of the mapping. *)
Theorem C2_key_set_is_canonical_names
    (SHIB_ATTRIBUTE_MAP : list entry) (meta : gmap string string) :
  dom (parse_attributes SHIB_ATTRIBUTE_MAP meta).1 = canonical_names SHIB_ATTRIBUTE_MAP
  ∧ dom (parse_attributes SHIB_ATTRIBUTE_MAP ∅).1 = canonical_names SHIB_ATTRIBUTE_MAP
  ∧ (∀ e, e ∈ SHIB_ATTRIBUTE_MAP →
       is_Some ((parse_attributes SHIB_ATTRIBUTE_MAP meta).1 !! entry_name e))
  ∧ (∀ k, is_Some ((parse_attributes SHIB_ATTRIBUTE_MAP meta).1 !! k) →
       ∃ e, e ∈ SHIB_ATTRIBUTE_MAP ∧ entry_name e = k).
Proof.
  split_and!.
  - apply parse_loop_dom_empty.
  - apply parse_loop_dom_empty.
  - intros e He. apply elem_of_dom. rewrite parse_loop_dom_empty.
    apply elem_of_list_to_set, list_elem_of_fmap. by exists e.
  - intros k Hk. apply elem_of_dom in Hk. rewrite parse_loop_dom_empty in Hk.
    apply elem_of_list_to_set, list_elem_of_fmap in Hk as (e & -> & He).
    by exists e.
Qed.

(** C10: with pairwise distinct canonical names, an item whose header is
    missing is stored as [None] and an item whose header holds the empty
    string is stored as the empty string; the validation test treats the
    two alike, and the two stored values differ. *)
Theorem C10_missing_is_None_empty_is_empty
    (SHIB_ATTRIBUTE_MAP : list entry) (meta : gmap string string) (e : entry)
    (Hunique : NoDup (entry_name <$> SHIB_ATTRIBUTE_MAP))
    (He : e ∈ SHIB_ATTRIBUTE_MAP) :
  (meta !! entry_header e = None →
     (parse_attributes SHIB_ATTRIBUTE_MAP meta).1 !! entry_name e = Some PyNone)
  ∧ (meta !! entry_header e = Some "" →
     (parse_attributes SHIB_ATTRIBUTE_MAP meta).1 !! entry_name e = Some (PyStr ""))
  ∧ absent PyNone = absent (PyStr "")
  ∧ (header_absent meta (entry_header e) → entry_required e = true →
     (parse_attributes SHIB_ATTRIBUTE_MAP meta).2 = true)
  ∧ PyNone ≠ PyStr "".
Proof.
  split_and!.
  - intros Hm. rewrite parse_attributes_lookup by done.
    unfold meta_get. by rewrite Hm.
  - intros Hm. rewrite parse_attributes_lookup by done.
    unfold meta_get. by rewrite Hm.
  - reflexivity.
  - intros Ha Hr.
    unfold parse_attributes. apply parse_loop_error. right. by exists e.
  - discriminate.
Qed.

(** The test configuration with the mail header empty and the bar code
    header missing. *)
Lemma C10_witness :
  let meta : gmap string string := {[ "Shibboleth-mail" := "" ]} in
  let attrs := (parse_attributes Testsettings.SHIBBOLETH_ATTRIBUTE_MAP meta).1 in
  attrs !! "barcode" = Some PyNone ∧ attrs !! "email" = Some (PyStr "").
Proof.
  intros meta attrs.
  assert (Hunique : NoDup (entry_name <$> Testsettings.SHIBBOLETH_ATTRIBUTE_MAP)).
  { by apply (bool_decide_unpack _); vm_compute. }
  split.
  - refine (proj1 (C10_missing_is_None_empty_is_empty
                     Testsettings.SHIBBOLETH_ATTRIBUTE_MAP meta
                     ("Shibboleth-schoolBarCode", (false, "barcode")) Hunique _) _).
    + by apply (bool_decide_unpack _); vm_compute.
    + reflexivity.
  - refine (proj1 (proj2 (C10_missing_is_None_empty_is_empty
                     Testsettings.SHIBBOLETH_ATTRIBUTE_MAP meta
                     ("Shibboleth-mail", (true, "email")) Hunique _)) _).
    + by apply (bool_decide_unpack _); vm_compute.
    + reflexivity.
Defined.

End MapperFacts.

(** ** The user resolver *)

Module BackendFacts.

Import Backend PyFacts.

(** *** The storage collaborator *)

Lemma objects_get_found username u s :
  filter (has_username username) (rows s) = [u] →
  objects_get username s = (Ok u, s).
Proof. intros H. unfold objects_get. by rewrite H. Qed.

Lemma objects_get_missing username s :
  filter (has_username username) (rows s) = [] →
  objects_get username s = (Raise DoesNotExist, s).
Proof. intros H. unfold objects_get. by rewrite H. Qed.

Lemma objects_get_many username u1 u2 us s :
  filter (has_username username) (rows s) = u1 :: u2 :: us →
  objects_get username s = (Raise MultipleObjectsReturned, s).
Proof. intros H. unfold objects_get. by rewrite H. Qed.

Lemma get_or_create_found model_defaults username defaults u s :
  filter (has_username username) (rows s) = [u] →
  objects_get_or_create model_defaults username defaults s = (Ok (u, false), s).
Proof.
  intros H. unfold objects_get_or_create, try_except.
  by rewrite (run_bind_ok _ _ _ _ _ (objects_get_found _ _ _ H)).
Qed.

Lemma get_or_create_missing model_defaults username defaults s :
  filter (has_username username) (rows s) = [] →
  objects_get_or_create model_defaults username defaults s
  = (Ok (created_user model_defaults username defaults s, true),
     Store (rows s ++ [created_user model_defaults username defaults s])
           (log s ++ [EvInsert (created_user model_defaults username defaults s)])).
Proof.
  intros H. unfold objects_get_or_create, try_except.
  by rewrite (run_bind_raise _ _ _ _ _ (objects_get_missing _ _ H)).
Qed.

Lemma get_or_create_many model_defaults username defaults u1 u2 us s :
  filter (has_username username) (rows s) = u1 :: u2 :: us →
  objects_get_or_create model_defaults username defaults s
  = (Raise MultipleObjectsReturned, s).
Proof.
  intros H. unfold objects_get_or_create, try_except.
  by rewrite (run_bind_raise _ _ _ _ _ (objects_get_many _ _ _ _ _ H)).
Qed.

(** The defaults win over the lookup key in the created instance. *)
Lemma created_user_lookup_default model_defaults username defaults s k v :
  defaults !! k = Some v →
  attrs (created_user model_defaults username defaults s) !! k = Some v.
Proof.
  intros H. unfold created_user. simpl.
  apply lookup_union_Some_l, lookup_union_Some_l, H.
Qed.

Lemma created_user_lookup_username model_defaults username defaults s :
  defaults !! "username" = None →
  attrs (created_user model_defaults username defaults s) !! "username"
  = Some (PyStr username).
Proof.
  intros H. unfold created_user. simpl.
  apply lookup_union_Some_l. rewrite lookup_union_r by done.
  apply lookup_singleton_eq.
Qed.


(** *** Field reconciliation *)

Lemma compare_fields user (l : list (string * pyval)) (s : store) :
  (∀ kv, kv ∈ l → is_Some (attrs user !! kv.1)) →
  mapM (λ kv, cur ← getattr user kv.1; ret (py_eqb cur kv.2)) l s
  = (Ok (agrees user <$> l), s).
Proof.
  induction l as [|kv l IH]; intros Hall; [done|].
  destruct (Hall kv) as [cur Hcur]; [by left|].
  cbn [mapM]. rewrite run_bind.
  unfold getattr at 1. rewrite Hcur.
  change ((ret cur ≫= λ cur, ret (py_eqb cur kv.2)) s)
    with (@Ok exn bool (py_eqb cur kv.2), s).
  cbv beta iota.
  rewrite run_bind, IH by (intros ??; apply Hall; by right).
  unfold mret, M_ret, ret. rewrite fmap_cons. do 3 f_equal.
  unfold agrees, py_eqb. rewrite Hcur.
  apply bool_decide_ext. split; congruence.
Qed.

Lemma py_min_agrees user (l : list (string * pyval)) :
  py_min (agrees user <$> l) = true ↔
  ∀ kv, kv ∈ l → attrs user !! kv.1 = Some kv.2.
Proof.
  induction l as [|kv l IH]; simpl.
  - split; [|done]. intros _ kv Hkv. by apply elem_of_nil in Hkv.
  - rewrite andb_true_iff, IH. unfold agrees at 1.
    rewrite bool_decide_eq_true. split.
    + intros [Hkv Hl] kv' Hin. apply elem_of_cons in Hin as [->|Hin]; auto.
    + intros Hall. split; [apply Hall; by left|].
      intros kv' Hin. apply Hall. by right.
Qed.

Lemma py_min_agrees_params user (params : gmap string pyval) :
  py_min (agrees user <$> map_to_list params) = true ↔
  ∀ k v, params !! k = Some v → attrs user !! k = Some v.
Proof.
  rewrite py_min_agrees. split.
  - intros H k v Hkv. by apply (H (k, v)), elem_of_map_to_list.
  - intros H [k v] Hkv. by apply H, elem_of_map_to_list.
Qed.

Lemma size_positive (params : gmap string pyval) :
  (0 <? size params)%nat = true ↔ params ≠ ∅.
Proof.
  rewrite <- map_size_non_empty_iff, Nat.ltb_lt. lia.
Qed.

(** The run of [update_user_params] on parameters that all name
    attributes of the instance. *)
Lemma update_user_params_run user (params : gmap string pyval) (s : store) :
  dom params ⊆ dom (attrs user) →
  update_user_params user params s
  = if (0 <? size params)%nat && negb (py_min (agrees user <$> map_to_list params))
    then (Ok (User (pk user) (params ∪ attrs user)),
          Store (write_row (User (pk user) (params ∪ attrs user)) (rows s))
                (log s ++ [EvSave (User (pk user) (params ∪ attrs user))]))
    else (Ok user, s).
Proof.
  intros Hdom. unfold update_user_params.
  destruct (0 <? size params)%nat; [|done]. cbn [andb].
  rewrite run_bind, compare_fields.
  - by destruct (py_min _).
  - intros [k v] Hkv. apply elem_of_map_to_list in Hkv. simpl.
    apply elem_of_dom, Hdom, elem_of_dom. by exists v.
Qed.

(** Reconciliation on parameters of which one differs from the user's. *)
Lemma update_user_params_differs user (params : gmap string pyval) (s : store) :
  dom params ⊆ dom (attrs user) →
  (∃ k v, params !! k = Some v ∧ attrs user !! k ≠ Some v) →
  update_user_params user params s
  = (Ok (User (pk user) (params ∪ attrs user)),
     Store (write_row (User (pk user) (params ∪ attrs user)) (rows s))
           (log s ++ [EvSave (User (pk user) (params ∪ attrs user))])).
Proof.
  intros Hdom (k & v & Hk & Hne). rewrite update_user_params_run by done.
  assert ((0 <? size params)%nat = true) as ->.
  { apply size_positive. intros ->. by rewrite lookup_empty in Hk. }
  destruct (py_min _) eqn:Hmin; [|done].
  by pose proof (proj1 (py_min_agrees_params _ _) Hmin k v Hk).
Qed.

Lemma update_user_params_same user (params : gmap string pyval) (s : store) :
  dom params ⊆ dom (attrs user) →
  (∀ k v, params !! k = Some v → attrs user !! k = Some v) →
  update_user_params user params s = (Ok user, s).
Proof.
  intros Hdom Hall. rewrite update_user_params_run by done.
  rewrite (proj2 (py_min_agrees_params _ _) Hall).
  by rewrite andb_false_r.
Qed.

(** C4: on parameters that name fields of the user,
    [update_user_params] saves once, with every given value applied, when
    some given value differs from the user's; it saves nothing when every
    given value equals the user's, and nothing for empty parameters. *)
Theorem C4_update_user_params_saves_once_iff_differs
    (user : user) (params : gmap string pyval) (s : store)
    (Hfields : dom params ⊆ dom (attrs user)) :
  let updated := User (pk user) (params ∪ attrs user) in
  ((∃ k v, params !! k = Some v ∧ attrs user !! k ≠ Some v) →
     update_user_params user params s
     = (Ok updated, Store (write_row updated (rows s)) (log s ++ [EvSave updated]))
     ∧ ∀ k v, params !! k = Some v → attrs updated !! k = Some v)
  ∧ ((∀ k v, params !! k = Some v → attrs user !! k = Some v) →
     update_user_params user params s = (Ok user, s))
  ∧ update_user_params user ∅ s = (Ok user, s).
Proof.
  intros updated. split_and!.
  - intros Hdiff. split.
    + by apply update_user_params_differs.
    + intros k' v' Hk'. simpl. by apply lookup_union_Some_l.
  - by apply update_user_params_same.
  - reflexivity.
Qed.

(** A user whose mail address changed is saved once with the new
    address; the same parameters a second time save nothing. *)
Lemma C4_witness :
  let user := User 1 (<["email" := PyStr "old@example.edu"]> {[ "username" := PyStr "u1" ]}) in
  let params : gmap string pyval := {[ "email" := PyStr "new@example.edu" ]} in
  let updated := User 1 (params ∪ attrs user) in
  (update_user_params user params (Store [user] [])
   = (Ok updated, Store [updated] [EvSave updated]))
  ∧ update_user_params updated params (Store [updated] [EvSave updated])
    = (Ok updated, Store [updated] [EvSave updated]).
Proof.
  intros user params updated. split.
  - refine (proj1 (proj1 (C4_update_user_params_saves_once_iff_differs
                            user params (Store [user] []) _) _)).
    + by apply (bool_decide_unpack _); vm_compute.
    + exists "email", (PyStr "new@example.edu"). by vm_compute.
  - refine (proj1 (proj2 (C4_update_user_params_saves_once_iff_differs
                            updated params (Store [updated] [EvSave updated]) _)) _).
    + by apply (bool_decide_unpack _); vm_compute.
    + intros k v Hkv. unfold params in Hkv.
      apply lookup_singleton_Some in Hkv as [<- <-]. by vm_compute.
Defined.

(** *** The parameters built by [authenticate] *)

Lemma py_dict_lookup (m : gmap string pyval) (pairs : list (string * pyval))
    (d : gmap string pyval) k :
  (∀ kv, kv ∈ pairs → m !! kv.1 = Some kv.2) →
  fold_left (λ d p, <[p.1 := p.2]> d) pairs d !! k
  = if decide (k ∈ pairs.*1) then m !! k else d !! k.
Proof.
  revert d. induction pairs as [|[k' v'] pairs IH]; intros d Hall.
  - cbn [fold_left]. case_decide as Hin; [|done]. by apply elem_of_nil in Hin.
  - cbn [fold_left]. rewrite IH by (intros ??; apply Hall; by right).
    rewrite fmap_cons. cbn [fst snd].
    destruct (decide (k ∈ pairs.*1)) as [Hin|Hnin].
    + rewrite decide_True; [done|]. by right.
    + destruct (decide (k = k')) as [->|Hne].
      * rewrite lookup_insert_eq, decide_True by (by left).
        symmetry. apply (Hall (k', v')). by left.
      * rewrite lookup_insert_ne by done.
        rewrite decide_False; [done|].
        intros Hin. apply elem_of_cons in Hin as [?|?]; done.
Qed.

Lemma known_fields_lookup field_names (shib_meta : gmap string pyval) k :
  known_fields field_names shib_meta !! k
  = if decide (k ∈ field_names) then shib_meta !! k else None.
Proof.
  unfold known_fields, py_dict.
  rewrite (py_dict_lookup shib_meta).
  - rewrite lookup_empty.
    destruct (decide (k ∈ field_names)) as [Hin|Hnin].
    + destruct (shib_meta !! k) as [v|] eqn:Hk.
      * rewrite decide_True; [done|].
        apply list_elem_of_fmap. exists (k, v). split; [done|].
        apply list_elem_of_omap. exists k. split; [done|]. by rewrite Hk.
      * by case_decide.
    + rewrite decide_False; [done|].
      intros Hin. apply list_elem_of_fmap in Hin as ([k' v] & -> & Hin).
      apply list_elem_of_omap in Hin as (k'' & Hin & Hsome).
      destruct (shib_meta !! k''); simplify_eq/=. done.
  - intros [k' v] Hin.
    apply list_elem_of_omap in Hin as (k'' & Hin & Hsome).
    destruct (shib_meta !! k'') eqn:E; simplify_eq/=. done.
Qed.


Lemma shib_user_params_loop_bound field_names (shib_meta : gmap string pyval) :
  field_names ≠ [] →
  shib_user_params_loop field_names shib_meta = Some (known_fields field_names shib_meta).
Proof.
  unfold shib_user_params_loop.
  generalize (known_fields field_names shib_meta). intros d.
  destruct field_names as [|f fs]; [done|]. intros _. simpl.
  induction fs as [|f' fs IH]; [done|exact IH].
Qed.

Lemma shib_user_params_loop_unbound (shib_meta : gmap string pyval) :
  shib_user_params_loop [] shib_meta = None.
Proof. reflexivity. Qed.

(** *** Creation and lookup *)

Lemma marked_unusable u : has_usable_password (marked u) = false.
Proof.
  unfold has_usable_password, marked. simpl. by rewrite lookup_insert_eq.
Qed.

Section resolver.

Variable field_names : list string.
Variable clean_username : string → string.
Variable configure_user : user → user.
Variable model_defaults : gmap string pyval.

Lemma handle_created_user_run u s :
  handle_created_user configure_user u s
  = (Ok (configure_user (marked u)),
     Store (write_row (marked u) (rows s))
           (log s ++ [EvSetUnusablePassword u; EvSave (marked u);
                      EvConfigureUser (marked u)])).
Proof.
  cbv [handle_created_user set_unusable_password save emit modify
       mbind M_bind bind ret rows log].
  fold (marked u). by rewrite <- !app_assoc.
Qed.

Lemma setup_user_create_run username defaults s :
  setup_user true configure_user model_defaults username defaults s
  = match objects_get_or_create model_defaults username defaults s with
    | (Ok (u, true), s1) => (handle_created_user configure_user u ≫= λ u, ret (Some u)) s1
    | (Ok (u, false), s1) => (Ok (Some u), s1)
    | (Raise e, s1) => (Raise e, s1)
    end.
Proof.
  unfold setup_user. rewrite run_bind.
  destruct (objects_get_or_create _ _ _ _) as [[[u []]|e] s1]; reflexivity.
Qed.

Lemma get_or_create_cases username defaults s :
  (filter (has_username username) (rows s) = [] ∧
   objects_get_or_create model_defaults username defaults s
   = (Ok (created_user model_defaults username defaults s, true),
      Store (rows s ++ [created_user model_defaults username defaults s])
            (log s ++ [EvInsert (created_user model_defaults username defaults s)])))
  ∨ (∃ u, filter (has_username username) (rows s) = [u] ∧
          objects_get_or_create model_defaults username defaults s = (Ok (u, false), s))
  ∨ (objects_get_or_create model_defaults username defaults s
     = (Raise MultipleObjectsReturned, s)).
Proof.
  destruct (filter (has_username username) (rows s)) as [|u1 [|u2 us]] eqn:E.
  - left. split; [done|]. by apply get_or_create_missing.
  - right. left. exists u1. split; [done|]. by apply get_or_create_found.
  - right. right. by eapply get_or_create_many.
Qed.

(** C7: with creation enabled, [setup_user] marks the password as
    unusable and calls [configure_user] when [get_or_create] created
    the record, and returns what the hook returns; when [get_or_create]
    found a record, that record is returned and nothing is marked,
    saved or configured, as when the lookup raises; and a record is
    created exactly when no record has the user name. *)
Theorem C7_marked_and_configured_iff_created
    (username : string) (defaults : gmap string pyval) (s : store) :
  (∀ u s1,
     objects_get_or_create model_defaults username defaults s = (Ok (u, true), s1) →
     setup_user true configure_user model_defaults username defaults s
     = (Ok (Some (configure_user (marked u))),
        Store (write_row (marked u) (rows s1))
              (log s1 ++ [EvSetUnusablePassword u; EvSave (marked u);
                          EvConfigureUser (marked u)]))
     ∧ has_usable_password (marked u) = false)
  ∧ (∀ u s1,
       objects_get_or_create model_defaults username defaults s = (Ok (u, false), s1) →
       setup_user true configure_user model_defaults username defaults s
       = (Ok (Some u), s))
  ∧ (∀ e s1,
       objects_get_or_create model_defaults username defaults s = (Raise e, s1) →
       setup_user true configure_user model_defaults username defaults s
       = (Raise e, s))
  ∧ ((∃ u s1, objects_get_or_create model_defaults username defaults s
              = (Ok (u, true), s1))
     ↔ filter (has_username username) (rows s) = []).
Proof.
  split_and!.
  - intros u s1 Hgoc. split; [|apply marked_unusable].
    rewrite setup_user_create_run, Hgoc, run_bind, handle_created_user_run.
    reflexivity.
  - intros u s1 Hgoc. rewrite setup_user_create_run, Hgoc.
    destruct (get_or_create_cases username defaults s)
      as [[_ H]|[(u' & _ & H)|H]]; rewrite H in Hgoc; congruence.
  - intros e s1 Hgoc. rewrite setup_user_create_run, Hgoc.
    destruct (get_or_create_cases username defaults s)
      as [[_ H]|[(u' & _ & H)|H]]; rewrite H in Hgoc; congruence.
  - split.
    + intros (u & s1 & Hgoc).
      destruct (get_or_create_cases username defaults s)
        as [[Hnone _]|[(u' & _ & H)|H]]; [done|..]; rewrite H in Hgoc; congruence.
    + intros Hnone. eexists _, _. by apply get_or_create_missing.
Qed.

(** C8: with creation disabled and no record of the user name,
    [setup_user] returns [None] and raises nothing, and so does
    [authenticate] on a user model that has fields. *)
Theorem C8_lookup_miss_returns_None
    (username : string) (defaults : gmap string pyval) (s : store)
    (Hmiss : filter (has_username username) (rows s) = [])
    (Hmodel : field_names ≠ []) :
  setup_user false configure_user model_defaults username defaults s = (Ok None, s)
  ∧ ∀ remote_user shib_meta,
      clean_username remote_user = username →
      authenticate false field_names clean_username configure_user model_defaults
        remote_user shib_meta s
      = (Ok None, s).
Proof.
  assert (Hsetup : ∀ defaults,
    setup_user false configure_user model_defaults username defaults s = (Ok None, s)).
  { intros d. unfold setup_user, try_except.
    by rewrite (run_bind_raise _ _ _ _ _ (objects_get_missing _ _ Hmiss)). }
  split; [apply Hsetup|].
  intros remote_user shib_meta Hclean.
  unfold authenticate. destruct (negb (truthy (PyStr remote_user))); [done|].
  rewrite shib_user_params_loop_bound by done.
  rewrite run_bind, Hclean, Hsetup. reflexivity.
Qed.

End resolver.

(** A first login: the record is created, marked and configured. *)
Lemma C7_witness :
  let s := Store [] [] in
  let defaults : gmap string pyval := {[ "email" := PyStr "u1@example.edu" ]} in
  let created := created_user ∅ "u1@example.edu" defaults s in
  setup_user true id ∅ "u1@example.edu" defaults s
  = (Ok (Some (marked created)),
     Store [marked created]
           [EvInsert created; EvSetUnusablePassword created;
            EvSave (marked created); EvConfigureUser (marked created)])
  ∧ setup_user true id ∅ "u1@example.edu" defaults (Store [created] [])
    = (Ok (Some created), Store [created] []).
Proof.
  intros s defaults created.
  pose proof (C7_marked_and_configured_iff_created id ∅ "u1@example.edu" defaults s)
    as (Hcreated & _ & _ & _).
  pose proof (C7_marked_and_configured_iff_created id ∅ "u1@example.edu" defaults
                (Store [created] []))
    as (_ & Hfound & _ & _).
  split.
  - exact (proj1 (Hcreated created (Store [created] [EvInsert created]) eq_refl)).
  - exact (Hfound created (Store [created] []) eq_refl).
Defined.

(** An unknown user with creation disabled stays anonymous. *)
Lemma C8_witness :
  let s := Store [User 1 {[ "username" := PyStr "admin" ]}] [] in
  setup_user false id ∅ "u1@example.edu" ∅ s = (Ok None, s)
  ∧ authenticate false ["username"; "email"] id id ∅ "u1@example.edu"
      {[ "email" := PyStr "u1@example.edu" ]} s
    = (Ok None, s).
Proof.
  intros s.
  assert (Hmiss : filter (has_username "u1@example.edu") (rows s) = []) by reflexivity.
  assert (Hmodel : ["username"; "email"] ≠ []) by discriminate.
  pose proof (C8_lookup_miss_returns_None ["username"; "email"] id id ∅
                "u1@example.edu" ∅ s Hmiss Hmodel) as [Hsetup Hauth].
  split; [exact Hsetup | by apply Hauth].
Defined.

End BackendFacts.

(** ** The authentication orchestrator *)

Module MiddlewareFacts.

Import Middleware PyFacts Scenarios.


Section orchestrator.

Variable SHIB_ATTRIBUTE_MAP : list Mapper.entry.
Variable LOGOUT_SESSION_KEY : string.
Variable header : string.
Variable clean_username : string → request → outcome exn string.
Variable _remove_invalid_user : request → request.
Variable auth_authenticate :
  request → string → gmap string pyval → M Backend.store (option Backend.user).
Variable auth_login : Backend.user → M (request * Backend.store) unit.

Local Abbreviation locate :=
  (locate_remote_user LOGOUT_SESSION_KEY header clean_username _remove_invalid_user).
Local Abbreviation run :=
  (process_request SHIB_ATTRIBUTE_MAP LOGOUT_SESSION_KEY header clean_username
     _remove_invalid_user auth_authenticate auth_login).
Local Abbreviation run_all :=
  (serve SHIB_ATTRIBUTE_MAP LOGOUT_SESSION_KEY header clean_username
     _remove_invalid_user auth_authenticate auth_login).
Local Abbreviation suppressed st :=
  (session (req st) !! LOGOUT_SESSION_KEY = Some (SVal (PyBool true))).

Lemma process_request_run st :
  run st = match locate st with
           | (Ok None, st1) => (Ok tt, st1)
           | (Ok (Some username), st1) =>
               extract_and_authenticate SHIB_ATTRIBUTE_MAP auth_authenticate auth_login
                 username st1
           | (Raise e, st1) => (Raise e, st1)
           end.
Proof.
  unfold process_request. rewrite run_bind.
  destruct (locate st) as [[[username|]|e] st1]; reflexivity.
Qed.

Lemma locate_no_user st :
  user (req st) = None → locate st = (Raise ImproperlyConfigured, st).
Proof. intros H. unfold locate_remote_user. by rewrite H. Qed.

Lemma locate_suppressed st ru :
  user (req st) = Some ru → suppressed st → locate st = (Ok None, st).
Proof.
  intros Hu Hflag. unfold locate_remote_user. rewrite Hu.
  by rewrite bool_decide_eq_true_2.
Qed.

Lemma locate_same_user st u username cleaned :
  user (req st) = Some (AuthUser u) →
  ¬ suppressed st →
  META (req st) !! header = Some username →
  username ≠ "" →
  clean_username username (req (popped LOGOUT_SESSION_KEY st)) = Ok cleaned →
  Backend.attrs u !! "username" = Some (PyStr cleaned) →
  locate st = (Ok None, popped LOGOUT_SESSION_KEY st).
Proof.
  intros Hu Hflag Hmeta Hne Hclean Hsame. unfold locate_remote_user. rewrite Hu.
  rewrite bool_decide_eq_false_2 by done.
  cbn [set_req set_session req META]. rewrite Hmeta.
  assert (negb (truthy (PyStr username)) = false) as ->.
  { apply negb_false_iff, not_false_is_true. by rewrite truthy_str. }
  cbn [is_authenticated get_username]. rewrite Hsame.
  change (set_session _ (req st)) with (req (popped LOGOUT_SESSION_KEY st)).
  rewrite Hclean, py_eqb_refl.
  reflexivity.
Qed.

Lemma extract_and_authenticate_run username st :
  extract_and_authenticate SHIB_ATTRIBUTE_MAP auth_authenticate auth_login username st
  = let shib_meta := (parse_attributes SHIB_ATTRIBUTE_MAP (req st)).1 in
    (if (parse_attributes SHIB_ATTRIBUTE_MAP (req st)).2
     then raise (ShibbolethValidationError shib_meta)
     else
       user ← call_authenticate auth_authenticate username shib_meta;
       match user with
       | Some user =>
           login auth_login user ;;
           emit (EvMakeProfile user) ;;
           make_profile user shib_meta ;;
           emit EvSetupSession ;;
           setup_session
       | None => ret tt
       end) (stored shib_meta st).
Proof.
  unfold extract_and_authenticate.
  cbv [mbind M_bind bind emit modify gets req db trace].
  destruct (parse_attributes SHIB_ATTRIBUTE_MAP _) as [shib_meta error].
  cbv [store_shib modify set_session req db trace session META user fst snd stored].
  destruct st as [[meta sess ru] d tr]. cbn [req db trace session META user].
  rewrite <- app_assoc. reflexivity.
Qed.

Lemma serve_suppressed metas st ru :
  user (req st) = Some ru → suppressed st →
  (run_all metas st).1 = replicate (length metas) (Ok tt)
  ∧ session (req (run_all metas st).2) = session (req st)
  ∧ user (req (run_all metas st).2) = user (req st)
  ∧ db (run_all metas st).2 = db st
  ∧ trace (run_all metas st).2 = trace st.
Proof.
  revert st. induction metas as [|meta metas IH]; intros st Hu Hflag; [done|].
  cbn [serve]. rewrite process_request_run.
  rewrite (locate_suppressed _ ru) by done.
  specialize (IH (set_req (set_META meta (req st)) st) Hu Hflag).
  destruct (run_all metas _) as [rs st']. simpl in *.
  destruct IH as (-> & -> & -> & -> & ->). done.
Qed.

(** C3: while the session holds the logout flag, a request that carries
    the [user] attribute returns at once and leaves the whole state as it
    was: nothing is parsed, the session is not written, no user is
    resolved and nobody is logged in; this holds for every further
    request of the session, whatever headers it brings.  A request
    without the [user] attribute raises the configuration error first,
    also without touching the state. *)
Theorem C3_suppressed_request_is_left_alone (st : state)
    (Hflag : suppressed st) :
  (∀ ru, user (req st) = Some ru →
     run st = (Ok tt, st)
     ∧ ∀ metas,
         (run_all metas st).1 = replicate (length metas) (Ok tt)
         ∧ session (req (run_all metas st).2) = session (req st)
         ∧ user (req (run_all metas st).2) = user (req st)
         ∧ db (run_all metas st).2 = db st
         ∧ trace (run_all metas st).2 = trace st)
  ∧ (user (req st) = None → run st = (Raise ImproperlyConfigured, st)).
Proof.
  split.
  - intros ru Hu. split.
    + by rewrite process_request_run, (locate_suppressed _ ru).
    + intros metas. by apply (serve_suppressed metas st ru).
  - intros Hu. by rewrite process_request_run, locate_no_user.
Qed.


(** C6: a request that reaches the attribute extraction has the parsed
    attributes written into the session under [shib] before the
    validation flag is looked at: the gate and all that follows run on
    the state that holds them.  When the flag is set the request ends in
    the validation error that carries the parsed attributes, in that very
    state: the attributes are in the session, [authenticate] and [login]
    were not called, and the user and the user table are as they were. *)
Theorem C6_attributes_stored_before_gate (st st1 : state) (username : string)
    (Hreach : locate st = (Ok (Some username), st1)) :
  let shib_meta := (parse_attributes SHIB_ATTRIBUTE_MAP (req st1)).1 in
  let error := (parse_attributes SHIB_ATTRIBUTE_MAP (req st1)).2 in
  run st
  = (if error then raise (ShibbolethValidationError shib_meta)
     else
       user ← call_authenticate auth_authenticate username shib_meta;
       match user with
       | Some user =>
           login auth_login user ;;
           emit (EvMakeProfile user) ;;
           make_profile user shib_meta ;;
           emit EvSetupSession ;;
           setup_session
       | None => ret tt
       end) (stored shib_meta st1)
  ∧ session (req (stored shib_meta st1)) !! "shib" = Some (SDict shib_meta)
  ∧ (error = true →
     run st = (Raise (ShibbolethValidationError shib_meta), stored shib_meta st1)
     ∧ trace (run st).2
       = trace st1 ++ [EvParseAttributes; EvSessionSet "shib" (SDict shib_meta)]
     ∧ user (req (run st).2) = user (req st1)
     ∧ db (run st).2 = db st1).
Proof.
  intros shib_meta error.
  assert (Hrun : run st = extract_and_authenticate SHIB_ATTRIBUTE_MAP auth_authenticate
                            auth_login username st1).
  { by rewrite process_request_run, Hreach. }
  rewrite extract_and_authenticate_run in Hrun.
  split_and!.
  - exact Hrun.
  - unfold stored. simpl. apply lookup_insert_eq.
  - intros Herror. rewrite Hrun. fold shib_meta error. rewrite Herror.
    done.
Qed.

End orchestrator.

(** C3 as stated fails on a request without the [user] attribute: with
    the logout flag set, [process_request] raises instead of returning. *)
Lemma C3_counterexample :
  session (req (logged_out None)) !! "shib_force_reauth" = Some (SVal (PyBool true))
  ∧ Django.process_request id (logged_out None)
    = (Raise ImproperlyConfigured, logged_out None).
Proof. split; reflexivity. Qed.

Lemma C3_witness :
  Django.process_request id (logged_out (Some AnonymousUser))
  = (Ok tt, logged_out (Some AnonymousUser)).
Proof.
  refine (proj1 (proj1 (C3_suppressed_request_is_left_alone
    Testsettings.SHIBBOLETH_ATTRIBUTE_MAP "shib_force_reauth" "REMOTE_USER"
    (Django.clean_username id) Django._remove_invalid_user (Django.auth_authenticate true Django.fields id)
    (Django.auth_login Django.NOW) (logged_out (Some AnonymousUser)) _) AnonymousUser _)).
  - reflexivity.
  - reflexivity.
Defined.



(** The remote user alone, the required headers missing: the validation
    error, with the attributes in the session. *)
Lemma C6_witness :
  let shib_meta :=
    (parse_attributes Testsettings.SHIBBOLETH_ATTRIBUTE_MAP (req bare_remote_user)).1 in
  Django.process_request id bare_remote_user
  = (Raise (ShibbolethValidationError shib_meta), stored shib_meta bare_remote_user)
  ∧ shib_meta !! "username" = Some PyNone.
Proof.
  intros shib_meta. split; [|by vm_compute].
  refine (proj1 (proj2 (proj2 (C6_attributes_stored_before_gate
    Testsettings.SHIBBOLETH_ATTRIBUTE_MAP "shib_force_reauth" "REMOTE_USER"
    (Django.clean_username id) Django._remove_invalid_user (Django.auth_authenticate true Django.fields id)
    (Django.auth_login Django.NOW) bare_remote_user bare_remote_user "u1" _)) _)).
  - by vm_compute.
  - by vm_compute.
Defined.

(** The first request of a new user: the record is created with the
    mapped user name and an unusable password, saved once after the
    insertion, and logged in, which saves the time of the login. *)
Example first_login_creates_and_logs_in :
  let r := Django.process_request id first_login in
  r.1 = Ok tt
  ∧ (∃ u, user (req r.2) = Some (AuthUser u)
          ∧ Backend.rows (db r.2) = [u]
          ∧ Backend.attrs u !! "username" = Some (PyStr "u1@example.edu")
          ∧ Backend.attrs u !! "first_name" = Some (PyStr "U")
          ∧ Backend.has_usable_password u = false
          ∧ Backend.attrs u !! "last_login" = Some (PyStr Django.NOW)
          ∧ let m := Backend.User 1 (delete "last_login" (Backend.attrs u)) in
            let c := Backend.User 1 (delete "password" (Backend.attrs m)) in
            Backend.log (db r.2)
            = [Backend.EvInsert c; Backend.EvSetUnusablePassword c;
               Backend.EvSave m; Backend.EvConfigureUser m; Backend.EvSave u])
  ∧ (∃ shib_meta, session (req r.2) !! "shib" = Some (SDict shib_meta)
                  ∧ dom shib_meta
                    = Mapper.canonical_names Testsettings.SHIBBOLETH_ATTRIBUTE_MAP).
Proof.
  intros r. split_and!.
  - by vm_compute.
  - eexists. split_and!; [by vm_compute..].
  - eexists. split; [by vm_compute|].
    apply (MapperFacts.parse_loop_dom_empty Testsettings.SHIBBOLETH_ATTRIBUTE_MAP
             Scenarios.all_headers).
Qed.

(** The same headers once the user is logged in: the fast path. *)
Example second_request_is_fast_path :
  let r := Django.process_request id first_login in
  let again := set_req (set_META all_headers (req r.2)) r.2 in
  Django.process_request id again = (Ok tt, again).
Proof. by vm_compute. Qed.

End MiddlewareFacts.

(** * Further properties *)

(** ** The attribute mapper *)

Module MapperExtras.

Import Mapper PyFacts MapperFacts.

Lemma parse_loop_ext meta meta' (items : list entry) acc :
  (∀ e, e ∈ items → meta !! entry_header e = meta' !! entry_header e) →
  parse_loop meta items acc = parse_loop meta' items acc.
Proof.
  revert acc. induction items as [|e items IH]; intros acc Hagree; [done|].
  unfold parse_loop in *. cbn [fold_left].
  assert (parse_step meta acc e = parse_step meta' acc e) as ->.
  { destruct acc as [attrs error], e as [header [required name]].
    unfold parse_step, meta_get.
    pose proof (Hagree (header, (required, name))) as Hh.
    unfold entry_header in Hh. cbn [fst] in Hh. rewrite Hh; [done|by left]. }
  apply IH. intros e' He'. apply Hagree. by right.
Qed.

Lemma header_absent_weaken (meta meta' : gmap string string) header :
  meta ⊆ meta' → header_absent meta' header → header_absent meta header.
Proof.
  intros Hsub Ha. unfold header_absent in *.
  destruct (meta !! header) as [s|] eqn:E; [|by left].
  right. pose proof (lookup_weaken _ _ _ _ E Hsub) as E'.
  destruct Ha as [Ha|Ha]; congruence.
Qed.

Lemma parse_attributes_last_wins (before after : list entry) (e : entry) meta :
  entry_name e ∉ (entry_name <$> after) →
  (parse_attributes (before ++ e :: after) meta).1 !! entry_name e
  = Some (meta_get meta (entry_header e)).
Proof.
  intros Hfresh. unfold parse_attributes. rewrite parse_loop_app.
  destruct (parse_loop meta before (∅, false)) as [attrs error].
  change (parse_loop meta (e :: after) (attrs, error))
    with (parse_loop meta after (parse_step meta (attrs, error) e)).
  rewrite parse_loop_lookup_other by exact Hfresh.
  destruct e as [header [required name]]. simpl.
  by rewrite lookup_insert_eq.
Qed.

Lemma parse_attributes_flag_perm (items items' : list entry) meta :
  items ≡ₚ items' →
  (parse_attributes items meta).2 = (parse_attributes items' meta).2.
Proof.
  intros HP. apply eq_true_iff_eq. unfold parse_attributes.
  rewrite !parse_loop_error.
  split; (intros [?|(e & He & Hr & Ha)]; [by left|]; right; exists e;
          split_and!; [|done..]).
  - by rewrite <- HP.
  - by rewrite HP.
Qed.

Lemma parse_attributes_unnamed (items : list entry) meta k :
  k ∉ (entry_name <$> items) → (parse_attributes items meta).1 !! k = None.
Proof.
  intros Hk. apply not_elem_of_dom. rewrite parse_loop_dom_empty.
  unfold canonical_names. by rewrite elem_of_list_to_set.
Qed.

(** X1: [parse_attributes] reads the mapped headers only: two header
    sets that agree on every header named in the mapping give the same
    dictionary and the same flag. *)
Theorem X1_parse_attributes_reads_mapped_headers_only
    (SHIB_ATTRIBUTE_MAP : list entry) (meta meta' : gmap string string)
    (Hagree : ∀ e, e ∈ SHIB_ATTRIBUTE_MAP →
                meta !! entry_header e = meta' !! entry_header e) :
  parse_attributes SHIB_ATTRIBUTE_MAP meta = parse_attributes SHIB_ATTRIBUTE_MAP meta'.
Proof. unfold parse_attributes. by apply parse_loop_ext. Qed.

(** X2: more headers never fail a validation that passed: when a header
    set passes, every header set that extends it passes as well. *)
Theorem X2_validation_survives_more_headers
    (SHIB_ATTRIBUTE_MAP : list entry) (meta meta' : gmap string string)
    (Hsub : meta ⊆ meta')
    (Hpass : (parse_attributes SHIB_ATTRIBUTE_MAP meta).2 = false) :
  (parse_attributes SHIB_ATTRIBUTE_MAP meta').2 = false.
Proof.
  apply not_true_is_false. intros Hfail.
  unfold parse_attributes in *. apply parse_loop_error in Hfail.
  destruct Hfail as [?|(e & He & Hr & Ha)]; [done|].
  assert ((parse_loop meta SHIB_ATTRIBUTE_MAP (∅, false)).2 = true); [|congruence].
  apply parse_loop_error. right. exists e. split_and!; [done..|].
  by eapply header_absent_weaken.
Qed.

(** X3: when several items carry one canonical name, the last of them
    decides the stored value: the value of its header, or [None] when
    that header is missing, whatever the earlier items found. *)
Theorem X3_last_item_of_a_name_wins
    (before after : list entry) (e : entry) (meta : gmap string string)
    (Hlast : entry_name e ∉ (entry_name <$> after)) :
  (parse_attributes (before ++ e :: after) meta).1 !! entry_name e
  = Some (meta_get meta (entry_header e))
  ∧ (∀ s, meta !! entry_header e = Some s →
       (parse_attributes (before ++ e :: after) meta).1 !! entry_name e
       = Some (PyStr s))
  ∧ (meta !! entry_header e = None →
       (parse_attributes (before ++ e :: after) meta).1 !! entry_name e
       = Some PyNone).
Proof.
  pose proof (parse_attributes_last_wins before after e meta Hlast) as H.
  split_and!; [done|..].
  - intros s Hs. rewrite H. unfold meta_get. by rewrite Hs.
  - intros Hs. rewrite H. unfold meta_get. by rewrite Hs.
Qed.

(** X4: the order of the mapping does not matter to the flag and to the
    key set, and with pairwise distinct canonical names it does not
    matter to the dictionary either. *)
Theorem X4_order_of_mapping_is_irrelevant
    (items items' : list entry) (meta : gmap string string)
    (Hperm : items ≡ₚ items') :
  (parse_attributes items meta).2 = (parse_attributes items' meta).2
  ∧ dom (parse_attributes items meta).1 = dom (parse_attributes items' meta).1
  ∧ (NoDup (entry_name <$> items) →
     parse_attributes items meta = parse_attributes items' meta).
Proof.
  pose proof (parse_attributes_flag_perm items items' meta Hperm) as Hflag.
  split_and!; [done|..].
  - rewrite !parse_loop_dom_empty. unfold canonical_names. by rewrite Hperm.
  - intros Hnd.
    assert (Hnd' : NoDup (entry_name <$> items')) by (by rewrite <- Hperm).
    apply injective_projections; [|done].
    apply map_eq. intros k.
    destruct (decide (k ∈ entry_name <$> items)) as [Hin|Hnin].
    + apply list_elem_of_fmap in Hin as (e & -> & He).
      assert (He' : e ∈ items') by (by rewrite <- Hperm).
      by rewrite (parse_attributes_lookup items meta e Hnd He),
                 (parse_attributes_lookup items' meta e Hnd' He').
    + assert (Hnin' : k ∉ entry_name <$> items') by (by rewrite <- Hperm).
      by rewrite (parse_attributes_unnamed items meta k Hnin),
                 (parse_attributes_unnamed items' meta k Hnin').
Qed.

(** Headers outside the mapping do not change the result. *)
Lemma X1_witness :
  parse_attributes Testsettings.SHIBBOLETH_ATTRIBUTE_MAP {[ "Shibboleth-eppn" := "u1" ]}
  = parse_attributes Testsettings.SHIBBOLETH_ATTRIBUTE_MAP
      (<["User-Agent" := "curl"]> {[ "Shibboleth-eppn" := "u1" ]}).
Proof.
  apply X1_parse_attributes_reads_mapped_headers_only.
  intros e He. rewrite lookup_insert_ne; [done|].
  unfold Testsettings.SHIBBOLETH_ATTRIBUTE_MAP in He.
  repeat (apply elem_of_cons in He as [->|He]; [discriminate|]).
  by apply elem_of_nil in He.
Defined.

(** The complete header set with one more header still passes. *)
Lemma X2_witness :
  (parse_attributes Testsettings.SHIBBOLETH_ATTRIBUTE_MAP
     (<["User-Agent" := "curl"]> Scenarios.all_headers)).2 = false.
Proof.
  apply (X2_validation_survives_more_headers
           Testsettings.SHIBBOLETH_ATTRIBUTE_MAP Scenarios.all_headers).
  - by apply insert_subseteq.
  - by vm_compute.
Defined.

(** A required header that is present, followed by an optional item of
    the same name whose header is missing: the name is stored as [None]. *)
Lemma X3_witness :
  (parse_attributes [("A", (true, "x")); ("B", (false, "x"))] {[ "A" := "v" ]}).1 !! "x"
  = Some PyNone.
Proof.
  refine (proj2 (proj2 (X3_last_item_of_a_name_wins
                          [("A", (true, "x"))] [] ("B", (false, "x")) {[ "A" := "v" ]} _)) _).
  - apply not_elem_of_nil.
  - reflexivity.
Defined.

Lemma X4_witness :
  parse_attributes [("A", (true, "x")); ("B", (false, "y"))] {[ "A" := "v" ]}
  = parse_attributes [("B", (false, "y")); ("A", (true, "x"))] {[ "A" := "v" ]}.
Proof.
  refine (proj2 (proj2 (X4_order_of_mapping_is_irrelevant
                          [("A", (true, "x")); ("B", (false, "y"))]
                          [("B", (false, "y")); ("A", (true, "x"))]
                          {[ "A" := "v" ]} _)) _).
  - apply perm_swap.
  - by apply (bool_decide_unpack _); vm_compute.
Defined.

End MapperExtras.

(** ** The user resolver *)

Module BackendExtras.

Import Backend PyFacts BackendFacts.

(** *** The table *)

Lemma pk_le_max (rs : list user) r :
  r ∈ rs → (pk r ≤ foldr max 0 (pk <$> rs))%nat.
Proof.
  induction rs as [|r' rs IH]; intros Hin; [by apply elem_of_nil in Hin|].
  rewrite fmap_cons. cbn [foldr].
  apply elem_of_cons in Hin as [->|Hin]; [lia|].
  specialize (IH Hin). lia.
Qed.

Lemma fresh_pk_fresh (rs : list user) : fresh_pk rs ∉ (pk <$> rs).
Proof.
  intros Hin. apply list_elem_of_fmap in Hin as (r & Heq & Hr).
  pose proof (pk_le_max rs r Hr). unfold fresh_pk in Heq. lia.
Qed.

Lemma keep_other_rows (u : user) (rs : list user) :
  pk u ∉ (pk <$> rs) →
  (λ r, if bool_decide (pk r = pk u) then u else r) <$> rs = rs.
Proof.
  induction rs as [|r rs IH]; intros Hnin; [done|].
  rewrite fmap_cons in Hnin. apply not_elem_of_cons in Hnin as [Hne Hnin].
  rewrite fmap_cons, IH by done.
  by rewrite bool_decide_eq_false_2.
Qed.

Lemma write_row_replace_last (u c : user) (rs : list user) :
  pk u = pk c → pk c ∉ (pk <$> rs) → write_row u (rs ++ [c]) = rs ++ [u].
Proof.
  intros Hpk Hfresh. unfold write_row.
  rewrite bool_decide_eq_true_2.
  - rewrite fmap_app, keep_other_rows by (by rewrite Hpk).
    simpl. by rewrite bool_decide_eq_true_2.
  - rewrite fmap_app. apply elem_of_app. right. rewrite Hpk. by left.
Qed.

Lemma write_row_other (u r : user) (rs : list user) :
  pk r ≠ pk u → r ∈ write_row u rs ↔ r ∈ rs.
Proof.
  intros Hne. unfold write_row. case_bool_decide as Hin.
  - rewrite list_elem_of_fmap. split.
    + intros (r' & -> & Hr'). by case_bool_decide.
    + intros Hr. exists r. by rewrite bool_decide_eq_false_2.
  - rewrite elem_of_app, list_elem_of_singleton. split; [|by left].
    intros [?| ->]; done.
Qed.

(** *** Field reconciliation *)

Lemma compare_fields_missing user (l : list (string * pyval)) (s : store) :
  (∃ kv, kv ∈ l ∧ attrs user !! kv.1 = None) →
  mapM (λ kv, cur ← getattr user kv.1; ret (py_eqb cur kv.2)) l s
  = (Raise AttributeError, s).
Proof.
  induction l as [|kv l IH]; intros (kv' & Hin & Hnone).
  - by apply elem_of_nil in Hin.
  - cbn [mapM]. rewrite run_bind. unfold getattr at 1.
    destruct (attrs user !! kv.1) as [cur|] eqn:Hcur.
    + change ((ret cur ≫= λ cur, ret (py_eqb cur kv.2)) s)
        with (@Ok exn bool (py_eqb cur kv.2), s).
      cbv beta iota. rewrite run_bind, IH; [done|].
      exists kv'. split; [|done].
      apply elem_of_cons in Hin as [->|Hin]; [congruence|done].
    + reflexivity.
Qed.

Lemma update_user_params_missing user (params : gmap string pyval) (s : store) k v :
  params !! k = Some v → attrs user !! k = None →
  update_user_params user params s = (Raise AttributeError, s).
Proof.
  intros Hk Hnone. unfold update_user_params.
  assert ((0 <? size params)%nat = true) as ->.
  { apply size_positive. intros ->. by rewrite lookup_empty in Hk. }
  rewrite run_bind, compare_fields_missing; [done|].
  exists (k, v). split; [|done]. by apply elem_of_map_to_list.
Qed.

Lemma update_user_params_cases user (params : gmap string pyval) (s : store) :
  dom params ⊆ dom (attrs user) →
  (update_user_params user params s = (Ok user, s)
   ∧ ∀ k v, params !! k = Some v → attrs user !! k = Some v)
  ∨ (update_user_params user params s
     = (Ok (User (pk user) (params ∪ attrs user)),
        Store (write_row (User (pk user) (params ∪ attrs user)) (rows s))
              (log s ++ [EvSave (User (pk user) (params ∪ attrs user))]))).
Proof.
  intros Hdom. rewrite update_user_params_run by done.
  destruct (0 <? size params)%nat eqn:Hsize; cbn [andb].
  - destruct (py_min _) eqn:Hmin; cbn [negb]; [|by right].
    left. split; [done|]. by apply py_min_agrees_params.
  - left. split; [done|]. intros k v Hk.
    assert (params = ∅) as ->; [|by rewrite lookup_empty in Hk].
    apply map_size_empty_iff. apply Nat.ltb_ge in Hsize. lia.
Qed.



(** X5: [update_user_params] on a parameter that is no attribute of the
    user raises [AttributeError] and saves nothing. *)
Theorem X5_update_user_params_unknown_attribute
    (user : user) (params : gmap string pyval) (s : store) (k : string) (v : pyval)
    (Hk : params !! k = Some v)
    (Hmissing : attrs user !! k = None) :
  update_user_params user params s = (Raise AttributeError, s).
Proof. by eapply update_user_params_missing. Qed.

(** X6: [update_user_params] is idempotent: after one call the user
    holds every given value, and a second call with the same parameters
    saves nothing and leaves user and table as they are. *)
Theorem X6_update_user_params_idempotent
    (user : user) (params : gmap string pyval) (s : store)
    (Hfields : dom params ⊆ dom (attrs user)) :
  ∃ u1 s1,
    update_user_params user params s = (Ok u1, s1)
    ∧ (∀ k v, params !! k = Some v → attrs u1 !! k = Some v)
    ∧ update_user_params u1 params s1 = (Ok u1, s1).
Proof.
  destruct (update_user_params_cases user params s Hfields) as [[Hrun Hsame]|Hrun].
  - exists user, s. split_and!; [done..|].
    by apply update_user_params_same.
  - eexists _, _. split; [exact Hrun|].
    assert (Hagree : ∀ k v, params !! k = Some v →
              attrs (User (pk user) (params ∪ attrs user)) !! k = Some v).
    { intros k v Hk. simpl. by apply lookup_union_Some_l. }
    split; [exact Hagree|].
    apply update_user_params_same; [|exact Hagree].
    simpl. rewrite dom_union_L. apply union_subseteq_l.
Qed.

Lemma X5_witness :
  update_user_params (User 1 {[ "username" := PyStr "u1" ]})
    {[ "barcode" := PyStr "21234" ]} (Store [] [])
  = (Raise AttributeError, Store [] []).
Proof.
  by apply (X5_update_user_params_unknown_attribute _ _ _ "barcode" (PyStr "21234")).
Defined.

Lemma X6_witness :
  ∃ u1 s1,
    update_user_params (User 1 {[ "email" := PyStr "old@example.edu" ]})
      {[ "email" := PyStr "new@example.edu" ]} (Store [] []) = (Ok u1, s1)
    ∧ (∀ k v, ({[ "email" := PyStr "new@example.edu" ]} : gmap string pyval) !! k = Some v →
         attrs u1 !! k = Some v)
    ∧ update_user_params u1 {[ "email" := PyStr "new@example.edu" ]} s1 = (Ok u1, s1).
Proof.
  apply X6_update_user_params_idempotent.
  by apply (bool_decide_unpack _); vm_compute.
Defined.

(** *** Resolution *)

Section resolution.

Variable clean_username : string → string.
Variable configure_user : user → user.
Variable model_defaults : gmap string pyval.

Lemma setup_user_found (create_unknown_user : bool) username defaults u s :
  filter (has_username username) (rows s) = [u] →
  setup_user create_unknown_user configure_user model_defaults username defaults s
  = (Ok (Some u), s).
Proof.
  intros Hfound. destruct create_unknown_user.
  - by rewrite setup_user_create_run, (get_or_create_found _ _ _ u).
  - unfold setup_user, try_except.
    by rewrite (run_bind_ok _ _ _ _ _ (objects_get_found _ _ _ Hfound)).
Qed.

Lemma setup_user_many (create_unknown_user : bool) username defaults u1 u2 us s :
  filter (has_username username) (rows s) = u1 :: u2 :: us →
  setup_user create_unknown_user configure_user model_defaults username defaults s
  = (Raise MultipleObjectsReturned, s).
Proof.
  intros Hmany. destruct create_unknown_user.
  - by rewrite setup_user_create_run, (get_or_create_many _ _ _ u1 u2 us).
  - unfold setup_user, try_except.
    by rewrite (run_bind_raise _ _ _ _ _ (objects_get_many _ _ _ _ _ Hmany)).
Qed.

Lemma setup_user_missing username defaults s :
  filter (has_username username) (rows s) = [] →
  setup_user false configure_user model_defaults username defaults s = (Ok None, s).
Proof.
  intros Hmiss. unfold setup_user, try_except.
  by rewrite (run_bind_raise _ _ _ _ _ (objects_get_missing _ _ Hmiss)).
Qed.

Lemma setup_user_created username defaults s :
  filter (has_username username) (rows s) = [] →
  setup_user true configure_user model_defaults username defaults s
  = (Ok (Some (configure_user (marked (created_user model_defaults username defaults s)))),
     Store (rows s ++ [marked (created_user model_defaults username defaults s)])
           (log s ++ [EvInsert (created_user model_defaults username defaults s);
                      EvSetUnusablePassword (created_user model_defaults username defaults s);
                      EvSave (marked (created_user model_defaults username defaults s));
                      EvConfigureUser (marked (created_user model_defaults username defaults s))])).
Proof.
  intros Hmiss.
  rewrite setup_user_create_run, get_or_create_missing by done.
  rewrite run_bind, handle_created_user_run. cbn [rows log].
  rewrite write_row_replace_last; [|done|apply fresh_pk_fresh].
  by rewrite <- app_assoc.
Qed.

Lemma filter_cases username (s : store) :
  filter (has_username username) (rows s) = []
  ∨ (∃ u, filter (has_username username) (rows s) = [u])
  ∨ (∃ u1 u2 us, filter (has_username username) (rows s) = u1 :: u2 :: us).
Proof.
  destruct (filter (has_username username) (rows s)) as [|u1 [|u2 us]]; eauto 6.
Qed.

(** X8: with creation disabled [setup_user] never writes: the table and
    the log are as before in every case.  It returns the record when
    exactly one has the user name; several records with the name raise
    [MultipleObjectsReturned], which is not caught. *)
Theorem X8_setup_user_without_creation_only_reads
    (username : string) (defaults : gmap string pyval) (s : store) :
  (setup_user false configure_user model_defaults username defaults s).2 = s
  ∧ (∀ u, filter (has_username username) (rows s) = [u] →
       setup_user false configure_user model_defaults username defaults s
       = (Ok (Some u), s))
  ∧ (∀ u1 u2 us, filter (has_username username) (rows s) = u1 :: u2 :: us →
       setup_user false configure_user model_defaults username defaults s
       = (Raise MultipleObjectsReturned, s)).
Proof.
  split_and!.
  - destruct (filter_cases username s) as [H|[(u & H)|(u1 & u2 & us & H)]].
    + by rewrite setup_user_missing.
    + by rewrite (setup_user_found false _ _ u).
    + by rewrite (setup_user_many false _ _ u1 u2 us).
  - intros u H. by apply setup_user_found.
  - intros u1 u2 us H. by eapply setup_user_many.
Qed.


(** X10: resolving twice creates once: when the defaults do not rename
    the user, a second [setup_user] with the same arguments finds the
    record that the first one created and saved, returns it, and writes
    nothing. *)
Theorem X10_second_setup_user_finds_the_record
    (username : string) (defaults : gmap string pyval) (s : store)
    (Hmiss : filter (has_username username) (rows s) = [])
    (Hname : defaults !! "username" = None
             ∨ defaults !! "username" = Some (PyStr username)) :
  ∃ u s1,
    setup_user true configure_user model_defaults username defaults s
    = (Ok (Some (configure_user u)), s1)
    ∧ rows s1 = rows s ++ [u]
    ∧ setup_user true configure_user model_defaults username defaults s1
      = (Ok (Some u), s1).
Proof.
  eexists _, _. split; [by apply setup_user_created|].
  split; [done|].
  apply setup_user_found. cbn [rows].
  rewrite filter_app, Hmiss, filter_cons_True; [done|].
  unfold has_username, marked. cbn [attrs].
  rewrite lookup_insert_ne by done.
  destruct Hname as [Hn|Hn].
  - by apply created_user_lookup_username.
  - by apply created_user_lookup_default.
Qed.

(** X11: the guards of [authenticate]: an empty remote user returns
    [None] before anything else is looked at, and a user model without
    fields leaves [shib_user_params] unbound, so that a non-empty remote
    user raises; neither touches the table. *)
Theorem X11_authenticate_guards
    (create_unknown_user : bool) (field_names : list string)
    (shib_meta : gmap string pyval) (s : store) :
  authenticate create_unknown_user field_names clean_username configure_user
    model_defaults "" shib_meta s
  = (Ok None, s)
  ∧ (∀ remote_user, remote_user ≠ "" →
       authenticate create_unknown_user [] clean_username configure_user
         model_defaults remote_user shib_meta s
       = (Raise UnboundLocalError, s)).
Proof.
  split; [done|].
  intros remote_user Hne. unfold authenticate.
  assert (negb (truthy (PyStr remote_user)) = false) as ->.
  { apply negb_false_iff, not_false_is_true. by rewrite truthy_str. }
  reflexivity.
Qed.

Lemma known_fields_dom field_names (shib_meta : gmap string pyval) (u : user) :
  (∀ k, k ∈ field_names → is_Some (attrs u !! k)) →
  dom (known_fields field_names shib_meta) ⊆ dom (attrs u).
Proof.
  intros Hattrs k Hk. apply elem_of_dom in Hk as [v Hk].
  rewrite known_fields_lookup in Hk. apply elem_of_dom.
  case_decide; [auto|done].
Qed.

Lemma authenticate_run (create_unknown_user : bool) field_names remote_user
    (shib_meta : gmap string pyval) :
  remote_user ≠ "" → field_names ≠ [] →
  authenticate create_unknown_user field_names clean_username configure_user
    model_defaults remote_user shib_meta
  = (user ← setup_user create_unknown_user configure_user model_defaults
              (clean_username remote_user) (known_fields field_names shib_meta);
     match user with
     | Some user =>
         user ← update_user_params user (known_fields field_names shib_meta);
         ret (if user_can_authenticate user then Some user else None)
     | None => ret None
     end).
Proof.
  intros Hremote Hmodel. unfold authenticate.
  assert (negb (truthy (PyStr remote_user)) = false) as ->.
  { apply negb_false_iff, not_false_is_true. by rewrite truthy_str. }
  by rewrite shib_user_params_loop_bound.
Qed.

(** X12: [authenticate] for a user who has a record, with creation
    enabled or not.  When the mapped field values equal the stored ones
    nothing is written; otherwise the record is saved once with the new
    values.  Either way the eligibility test comes last, so a user who
    may not authenticate gets [None] after the save has happened.
    Attributes that are no fields of the model never reach the record. *)
Theorem X12_authenticate_existing_user
    (create_unknown_user : bool) (field_names : list string) (remote_user : string)
    (shib_meta : gmap string pyval) (s : store) (u : user)
    (Hremote : remote_user ≠ "")
    (Hmodel : field_names ≠ [])
    (Hfound : filter (has_username (clean_username remote_user)) (rows s) = [u])
    (Hattrs : ∀ k, k ∈ field_names → is_Some (attrs u !! k)) :
  let params := known_fields field_names shib_meta in
  let updated := User (pk u) (params ∪ attrs u) in
  ((∀ k v, params !! k = Some v → attrs u !! k = Some v) →
     authenticate create_unknown_user field_names clean_username configure_user
       model_defaults remote_user shib_meta s
     = (Ok (if user_can_authenticate u then Some u else None), s))
  ∧ ((∃ k v, params !! k = Some v ∧ attrs u !! k ≠ Some v) →
     authenticate create_unknown_user field_names clean_username configure_user
       model_defaults remote_user shib_meta s
     = (Ok (if user_can_authenticate updated then Some updated else None),
        Store (write_row updated (rows s)) (log s ++ [EvSave updated])))
  ∧ (∀ k, k ∉ field_names → attrs updated !! k = attrs u !! k).
Proof.
  intros params updated.
  pose proof (known_fields_dom field_names shib_meta u Hattrs) as Hdom.
  assert (Hsetup : setup_user create_unknown_user configure_user model_defaults
                     (clean_username remote_user) params s = (Ok (Some u), s))
    by (by apply setup_user_found).
  split_and!.
  - intros Hsame. rewrite authenticate_run by done.
    rewrite run_bind. fold params. rewrite Hsetup.
    by rewrite run_bind, update_user_params_same.
  - intros Hdiff. rewrite authenticate_run by done.
    rewrite run_bind. fold params. rewrite Hsetup.
    by rewrite run_bind, update_user_params_differs.
  - intros k Hk. simpl. apply lookup_union_r.
    unfold params. rewrite known_fields_lookup. by rewrite decide_False.
Qed.



End resolution.

Lemma X10_witness :
  ∃ u s1,
    setup_user true id ∅ "u1" {[ "email" := PyStr "u1@example.edu" ]} (Store [] [])
    = (Ok (Some (id u)), s1)
    ∧ rows s1 = rows (Store [] []) ++ [u]
    ∧ setup_user true id ∅ "u1" {[ "email" := PyStr "u1@example.edu" ]} s1
      = (Ok (Some u), s1).
Proof.
  refine (X10_second_setup_user_finds_the_record id ∅ "u1"
            {[ "email" := PyStr "u1@example.edu" ]} (Store [] []) _ _).
  - reflexivity.
  - by left.
Defined.

(** A deactivated user whose mail address changed: the new address is
    saved, and the user is not authenticated. *)
Lemma X12_witness :
  let u := User 1 (<["is_active" := PyBool false]>
                     (<["email" := PyStr "old@example.edu"]>
                        {[ "username" := PyStr "u1" ]})) in
  let updated := User 1 (<["is_active" := PyBool false]>
                           (<["email" := PyStr "new@example.edu"]>
                              {[ "username" := PyStr "u1" ]})) in
  authenticate false ["username"; "email"] id id ∅ "u1"
    (<["email" := PyStr "new@example.edu"]> {[ "idp" := PyStr "https://idp.example" ]})
    (Store [u] [])
  = (Ok None, Store [updated] [EvSave updated]).
Proof.
  intros u updated.
  refine (eq_trans (proj1 (proj2 (X12_authenticate_existing_user id id ∅ false
            ["username"; "email"] "u1"
            (<["email" := PyStr "new@example.edu"]> {[ "idp" := PyStr "https://idp.example" ]})
            (Store [u] []) u _ _ _ _)) _) _).
  - discriminate.
  - discriminate.
  - reflexivity.
  - intros k Hk.
    repeat (apply elem_of_cons in Hk as [->|Hk]; [by eexists|]).
    by apply elem_of_nil in Hk.
  - exists "email", (PyStr "new@example.edu"). by vm_compute.
  - by vm_compute.
Defined.



End BackendExtras.

(** ** The authentication orchestrator *)

Module MiddlewareExtras.

Import Middleware PyFacts MiddlewareFacts Scenarios.

Section flow.

Variable SHIB_ATTRIBUTE_MAP : list Mapper.entry.
Variable LOGOUT_SESSION_KEY : string.
Variable header : string.
Variable clean_username : string → request → outcome exn string.
Variable _remove_invalid_user : request → request.
Variable auth_authenticate :
  request → string → gmap string pyval → M Backend.store (option Backend.user).
Variable auth_login : Backend.user → M (request * Backend.store) unit.

Local Abbreviation locate :=
  (locate_remote_user LOGOUT_SESSION_KEY header clean_username _remove_invalid_user).
Local Abbreviation extract :=
  (extract_and_authenticate SHIB_ATTRIBUTE_MAP auth_authenticate auth_login).
Local Abbreviation run :=
  (process_request SHIB_ATTRIBUTE_MAP LOGOUT_SESSION_KEY header clean_username
     _remove_invalid_user auth_authenticate auth_login).
Local Abbreviation suppressed st :=
  (session (req st) !! LOGOUT_SESSION_KEY = Some (SVal (PyBool true))).
Local Abbreviation parsed r := (parse_attributes SHIB_ATTRIBUTE_MAP r).

Lemma run_unfold st :
  run st = match locate st with
           | (Ok None, st1) => (Ok tt, st1)
           | (Ok (Some username), st1) => extract username st1
           | (Raise e, st1) => (Raise e, st1)
           end.
Proof. apply process_request_run. Qed.

Lemma truthy_nonempty username : username ≠ "" → negb (truthy (PyStr username)) = false.
Proof. intros H. apply negb_false_iff, not_false_is_true. by rewrite truthy_str. Qed.

Lemma locate_no_header st ru :
  user (req st) = Some ru → ¬ suppressed st →
  META (req st) !! header = None ∨ META (req st) !! header = Some "" →
  locate st = (Ok None, popped LOGOUT_SESSION_KEY st).
Proof.
  intros Hu Hflag Hh. unfold locate_remote_user. rewrite Hu.
  rewrite bool_decide_eq_false_2 by done.
  cbn [set_req set_session req META]. by destruct Hh as [->| ->].
Qed.

Lemma locate_anonymous st username :
  user (req st) = Some AnonymousUser → ¬ suppressed st →
  META (req st) !! header = Some username → username ≠ "" →
  locate st = (Ok (Some username), popped LOGOUT_SESSION_KEY st).
Proof.
  intros Hu Hflag Hh Hne. unfold locate_remote_user. rewrite Hu.
  rewrite bool_decide_eq_false_2 by done.
  cbn [set_req set_session req META]. rewrite Hh.
  by rewrite truthy_nonempty.
Qed.

Lemma locate_other_user st u username name cleaned :
  user (req st) = Some (AuthUser u) → ¬ suppressed st →
  META (req st) !! header = Some username → username ≠ "" →
  get_username (AuthUser u) = Some name →
  clean_username username (req (popped LOGOUT_SESSION_KEY st)) = Ok cleaned →
  name ≠ PyStr cleaned →
  locate st = (Ok (Some username),
               State (_remove_invalid_user (req (popped LOGOUT_SESSION_KEY st)))
                     (db st) (trace st ++ [EvRemoveInvalidUser])).
Proof.
  intros Hu Hflag Hh Hne Hname Hclean Hdiff. unfold locate_remote_user. rewrite Hu.
  rewrite bool_decide_eq_false_2 by done.
  cbn [set_req set_session req META]. rewrite Hh.
  rewrite truthy_nonempty by done.
  cbn [is_authenticated]. rewrite Hname.
  change (set_session _ (req st)) with (req (popped LOGOUT_SESSION_KEY st)).
  rewrite Hclean.
  by rewrite (proj2 (py_eqb_neq _ _) Hdiff).
Qed.

Lemma locate_clean_raises st u username name e :
  user (req st) = Some (AuthUser u) → ¬ suppressed st →
  META (req st) !! header = Some username → username ≠ "" →
  get_username (AuthUser u) = Some name →
  clean_username username (req (popped LOGOUT_SESSION_KEY st)) = Raise e →
  locate st = (Raise e, popped LOGOUT_SESSION_KEY st).
Proof.
  intros Hu Hflag Hh Hne Hname Hclean. unfold locate_remote_user. rewrite Hu.
  rewrite bool_decide_eq_false_2 by done.
  cbn [set_req set_session req META]. rewrite Hh.
  rewrite truthy_nonempty by done.
  cbn [is_authenticated]. rewrite Hname.
  change (set_session _ (req st)) with (req (popped LOGOUT_SESSION_KEY st)).
  by rewrite Hclean.
Qed.

(** What [locate_remote_user] leaves behind when the method returns or
    raises there. *)
Lemma locate_stop st r st1 :
  locate st = (r, st1) →
  (∀ username, r ≠ Ok (Some username)) →
  db st1 = db st ∧ trace st1 = trace st
  ∧ META (req st1) = META (req st) ∧ user (req st1) = user (req st)
  ∧ (session (req st1) = session (req st)
     ∨ session (req st1) = delete LOGOUT_SESSION_KEY (session (req st))).
Proof.
  unfold locate_remote_user. intros Hloc Hstop.
  destruct (user (req st)) as [ru|] eqn:Hu.
  2:{ simplify_eq. rewrite Hu. split_and!; auto. }
  case_bool_decide.
  { simplify_eq. rewrite Hu. split_and!; auto. }
  cbn [set_req set_session req META] in Hloc.
  destruct (META (req st) !! header) as [username|].
  2:{ simplify_eq. cbn. split_and!; auto. }
  destruct (negb (truthy (PyStr username))).
  { simplify_eq. cbn. split_and!; auto. }
  destruct (is_authenticated ru).
  2:{ simplify_eq. by destruct (Hstop username). }
  destruct (get_username ru) as [name|].
  2:{ simplify_eq. cbn. split_and!; auto. }
  destruct (clean_username username _) as [cleaned|e].
  2:{ simplify_eq. cbn. split_and!; auto. }
  destruct (py_eqb name (PyStr cleaned)).
  - simplify_eq. cbn. split_and!; auto.
  - simplify_eq. by destruct (Hstop username).
Qed.

(** The ends of a request whose attributes passed the validation. *)
Lemma extract_valid username st :
  (parsed (req st)).2 = false →
  extract username st
  = match auth_authenticate (req (stored (parsed (req st)).1 st)) username
            (parsed (req st)).1 (db st) with
    | (Ok (Some u), db') =>
        match auth_login u (set_user (AuthUser u) (req (stored (parsed (req st)).1 st)),
                            db') with
        | (Ok _, (request, db'')) =>
            (Ok tt,
             State request db''
                   (trace (stored (parsed (req st)).1 st)
                    ++ [EvAuthenticate username (parsed (req st)).1;
                        EvLogin u; EvMakeProfile u; EvSetupSession]))
        | (Raise e, (request, db'')) =>
            (Raise e,
             State request db''
                   (trace (stored (parsed (req st)).1 st)
                    ++ [EvAuthenticate username (parsed (req st)).1; EvLogin u]))
        end
    | (Ok None, db') =>
        (Ok tt,
         State (req (stored (parsed (req st)).1 st)) db'
               (trace (stored (parsed (req st)).1 st)
                ++ [EvAuthenticate username (parsed (req st)).1]))
    | (Raise e, db') =>
        (Raise e,
         State (req (stored (parsed (req st)).1 st)) db'
               (trace (stored (parsed (req st)).1 st)
                ++ [EvAuthenticate username (parsed (req st)).1]))
    end.
Proof.
  intros Hvalid. rewrite extract_and_authenticate_run. cbv zeta.
  rewrite Hvalid. rewrite run_bind. unfold call_authenticate.
  cbn [req db trace stored].
  destruct (auth_authenticate _ _ _ _) as [[[u|]|e] db']; [|done..].
  rewrite run_bind. unfold login. cbn [req db trace].
  destruct (auth_login u _) as [[[]|e] [request db'']].
  - cbv [mbind M_bind bind emit modify make_profile setup_session ret
         req db trace].
    by rewrite <- !app_assoc.
  - by rewrite <- !app_assoc.
Qed.

Lemma extract_trace username st :
  ∃ rest,
    trace (extract username st).2
    = trace st ++ [EvParseAttributes; EvSessionSet "shib" (SDict (parsed (req st)).1)]
      ++ rest.
Proof.
  destruct (parsed (req st)).2 eqn:Herr.
  - exists []. rewrite extract_and_authenticate_run. cbv zeta. by rewrite Herr.
  - rewrite extract_valid by done.
    destruct (auth_authenticate _ _ _ _) as [[[u|]|e] db'];
      [destruct (auth_login u _) as [[[]|e] [request db'']]|..];
      cbn [snd trace stored]; rewrite <- app_assoc; by eexists.
Qed.

(** X14: a request that does not get as far as the attribute extraction
    leaves the user table, the record of calls, the header set and the
    attached user as they were; of the session at most the logout key is
    removed.  The outcome is a plain return, or the exception raised
    there. *)
Theorem X14_early_exit_touches_only_the_logout_key (st : state)
    (Hstop : ∀ username, (locate st).1 ≠ Ok (Some username)) :
  (run st).2 = (locate st).2
  ∧ (∀ e, (run st).1 = Raise e ↔ (locate st).1 = Raise e)
  ∧ db (run st).2 = db st ∧ trace (run st).2 = trace st
  ∧ META (req (run st).2) = META (req st)
  ∧ user (req (run st).2) = user (req st)
  ∧ (session (req (run st).2) = session (req st)
     ∨ session (req (run st).2) = delete LOGOUT_SESSION_KEY (session (req st))).
Proof.
  rewrite run_unfold.
  destruct (locate st) as [r st1] eqn:Hloc. cbn [fst snd] in *.
  destruct (locate_stop st r st1 Hloc Hstop) as (Hdb & Htrace & Hmeta & Huser & Hsess).
  destruct r as [[username|]|e].
  - by destruct (Hstop username).
  - cbn [fst snd]. split_and!; [done| |done..]. intros e. split; discriminate.
  - cbn [fst snd]. split_and!; [done| |done..]. intros e'. split; by intros [= ->].
Qed.

(** X15: without a remote-user header, or with an empty one, the request
    returns and stays anonymous: nothing happens beyond the removal of the
    logout key, which then is absent from the session. *)
Theorem X15_missing_or_empty_remote_user (st : state) (ru : request_user)
    (Huser : user (req st) = Some ru)
    (Hflag : ¬ suppressed st)
    (Hheader : META (req st) !! header = None ∨ META (req st) !! header = Some "") :
  run st = (Ok tt, popped LOGOUT_SESSION_KEY st)
  ∧ session (req (run st).2) !! LOGOUT_SESSION_KEY = None
  ∧ user (req (run st).2) = Some ru.
Proof.
  assert (Hrun : run st = (Ok tt, popped LOGOUT_SESSION_KEY st)).
  { by rewrite run_unfold, (locate_no_header st ru). }
  rewrite Hrun. split_and!; [done| |done].
  cbn. apply lookup_delete_eq.
Qed.

(** X16: where the extraction starts.  For an anonymous user it starts
    on the request as the removal of the logout key left it.  For an
    authenticated user whose name is not the cleaned header value,
    [_remove_invalid_user] runs first, once, and the attributes are parsed
    from the request that it returned.  When [clean_username] raises for
    an authenticated user, the exception leaves [process_request]:
    [_remove_invalid_user] does not run and nothing is parsed. *)
Theorem X16_stale_user_is_removed_before_parsing (st : state) (username : string)
    (Hflag : ¬ suppressed st)
    (Hheader : META (req st) !! header = Some username)
    (Hnonempty : username ≠ "") :
  (user (req st) = Some AnonymousUser →
     run st = extract username (popped LOGOUT_SESSION_KEY st))
  ∧ (∀ u name cleaned,
       user (req st) = Some (AuthUser u) →
       get_username (AuthUser u) = Some name →
       clean_username username (req (popped LOGOUT_SESSION_KEY st)) = Ok cleaned →
       name ≠ PyStr cleaned →
       let cleared := _remove_invalid_user (req (popped LOGOUT_SESSION_KEY st)) in
       run st = extract username
                  (State cleared (db st) (trace st ++ [EvRemoveInvalidUser]))
       ∧ ∃ rest,
           trace (run st).2
           = trace st ++ [EvRemoveInvalidUser; EvParseAttributes;
                          EvSessionSet "shib" (SDict (parsed cleared).1)] ++ rest)
  ∧ (∀ u name e,
       user (req st) = Some (AuthUser u) →
       get_username (AuthUser u) = Some name →
       clean_username username (req (popped LOGOUT_SESSION_KEY st)) = Raise e →
       run st = (Raise e, popped LOGOUT_SESSION_KEY st)).
Proof.
  split_and!.
  - intros Hu. by rewrite run_unfold, (locate_anonymous st username).
  - intros u name cleaned Hu Hname Hclean Hdiff cleared.
    assert (Hrun : run st = extract username
              (State cleared (db st) (trace st ++ [EvRemoveInvalidUser]))).
    { by rewrite run_unfold, (locate_other_user st u username name cleaned). }
    split; [done|]. rewrite Hrun.
    destruct (extract_trace username
                (State cleared (db st) (trace st ++ [EvRemoveInvalidUser])))
      as [rest Hrest].
    exists rest. rewrite Hrest. cbn [req trace]. by rewrite <- app_assoc.
  - intros u name e Hu Hname Hclean.
    by rewrite run_unfold, (locate_clean_raises st u username name e).
Qed.

(** X17: the end of a request whose attributes passed the validation.
    [auth.authenticate] is called on the request that already holds the
    attributes in its session.  When it returns a user, that user is put
    on the request and [auth.login] runs; request and user table end as
    [auth.login] left them, and [make_profile] and [setup_session] run
    after it, in this order; when [auth.login] raises, its exception
    leaves [process_request] and neither hook runs.  When
    [auth.authenticate] returns [None] nobody is logged in and the request
    keeps its user.  When it raises, the exception leaves
    [process_request], and the attributes stay in the session. *)
Theorem X17_login_iff_authenticate_returns_a_user
    (st st1 : state) (username : string)
    (Hreach : locate st = (Ok (Some username), st1))
    (Hvalid : (parsed (req st1)).2 = false) :
  let shib_meta := (parsed (req st1)).1 in
  let st2 := stored shib_meta st1 in
  let called := trace st2 ++ [EvAuthenticate username shib_meta] in
  (∀ u db',
     auth_authenticate (req st2) username shib_meta (db st1) = (Ok (Some u), db') →
     (∀ request db'',
        auth_login u (set_user (AuthUser u) (req st2), db') = (Ok tt, (request, db'')) →
        run st = (Ok tt,
                  State request db''
                        (called ++ [EvLogin u; EvMakeProfile u; EvSetupSession])))
     ∧ (∀ e request db'',
          auth_login u (set_user (AuthUser u) (req st2), db')
          = (Raise e, (request, db'')) →
          run st = (Raise e, State request db'' (called ++ [EvLogin u]))))
  ∧ (∀ db',
       auth_authenticate (req st2) username shib_meta (db st1) = (Ok None, db') →
       run st = (Ok tt, State (req st2) db' called)
       ∧ user (req st2) = user (req st1))
  ∧ (∀ e db',
       auth_authenticate (req st2) username shib_meta (db st1) = (Raise e, db') →
       run st = (Raise e, State (req st2) db' called)
       ∧ session (req st2) !! "shib" = Some (SDict shib_meta)).
Proof.
  intros shib_meta st2 called.
  assert (Hrun : run st = extract username st1) by (by rewrite run_unfold, Hreach).
  rewrite Hrun, extract_valid by done. fold shib_meta st2.
  split_and!.
  - intros u db' ->. split.
    + intros request db'' ->. unfold called. by rewrite <- app_assoc.
    + intros e request db'' ->. unfold called. by rewrite <- app_assoc.
  - by intros db' ->.
  - intros e db' ->. split; [done|]. cbn. apply lookup_insert_eq.
Qed.

(** X18: after a login the next request of the same remote user does no
    work.  When [process_request] logged in a user, [auth.login] left on
    the request a user whose stored name is the cleaned header value of
    the next request, then that request returns at once: no call is
    recorded, the user table stays as the first request left it, and of
    the session at most the logout key is removed. *)
Theorem X18_request_after_login_is_fast_path
    (st st1 : state) (username cleaned : string) (u u' : Backend.user)
    (db' db'' : Backend.store) (request : request) (meta : gmap string string)
    (Hreach : locate st = (Ok (Some username), st1))
    (Hvalid : (parsed (req st1)).2 = false)
    (Hauth : auth_authenticate (req (stored (parsed (req st1)).1 st1)) username
               (parsed (req st1)).1 (db st1) = (Ok (Some u), db'))
    (Hlogin : auth_login u
                (set_user (AuthUser u) (req (stored (parsed (req st1)).1 st1)), db')
              = (Ok tt, (request, db'')))
    (Huser : user request = Some (AuthUser u'))
    (Hnonempty : username ≠ "")
    (Hheader : meta !! header = Some username)
    (Hclean : clean_username username
                (set_session (delete LOGOUT_SESSION_KEY (session request))
                   (set_META meta request))
              = Ok cleaned)
    (Hname : get_username (AuthUser u') = Some (PyStr cleaned)) :
  let next := set_req (set_META meta (req (run st).2)) (run st).2 in
  (run st).1 = Ok tt
  ∧ db (run st).2 = db''
  ∧ user (req next) = Some (AuthUser u')
  ∧ run next = (Ok tt, if bool_decide (suppressed next) then next
                       else popped LOGOUT_SESSION_KEY next)
  ∧ trace (run next).2 = trace (run st).2
  ∧ db (run next).2 = db (run st).2.
Proof.
  intros next.
  assert (Hrun : run st = extract username st1) by (by rewrite run_unfold, Hreach).
  rewrite extract_valid, Hauth, Hlogin in Hrun by done.
  assert (Hu : user (req next) = Some (AuthUser u')).
  { unfold next. by rewrite Hrun. }
  assert (Hmeta : META (req next) !! header = Some username) by done.
  assert (Hcl : clean_username username (req (popped LOGOUT_SESSION_KEY next))
                = Ok cleaned).
  { unfold next. by rewrite Hrun. }
  assert (Hnext : run next = (Ok tt, if bool_decide (suppressed next) then next
                                     else popped LOGOUT_SESSION_KEY next)).
  { rewrite run_unfold. case_bool_decide as Hflag.
    - by rewrite (locate_suppressed _ _ _ _ next (AuthUser u')).
    - by rewrite (locate_same_user _ _ _ _ next u' username cleaned). }
  split_and!; [by rewrite Hrun|by rewrite Hrun|done|done|..].
  - rewrite Hnext. case_bool_decide; reflexivity.
  - rewrite Hnext. case_bool_decide; reflexivity.
Qed.

End flow.

(** A request without the [user] attribute stops at the first check. *)
Lemma X14_witness :
  db (Django.process_request id (logged_out None)).2 = db (logged_out None)
  ∧ trace (Django.process_request id (logged_out None)).2 = trace (logged_out None).
Proof.
  assert (Hstop : ∀ username,
    (locate_remote_user "shib_force_reauth" "REMOTE_USER" (Django.clean_username id)
       Django._remove_invalid_user
       (logged_out None)).1 ≠ Ok (Some username)) by (intros username; discriminate).
  pose proof (X14_early_exit_touches_only_the_logout_key
    Testsettings.SHIBBOLETH_ATTRIBUTE_MAP "shib_force_reauth" "REMOTE_USER"
    (Django.clean_username id) Django._remove_invalid_user (Django.auth_authenticate true Django.fields id)
    (Django.auth_login Django.NOW) (logged_out None) Hstop) as (_ & _ & Hdb & Htrace & _).
  split; assumption.
Defined.

(** The proxy sends an empty remote user. *)
Lemma X15_witness :
  let st := State (Request {[ "REMOTE_USER" := "" ]}
                           {[ "shib_force_reauth" := SVal (PyBool false) ]}
                           (Some AnonymousUser))
                  (Backend.Store [] []) [] in
  Django.process_request id st = (Ok tt, popped "shib_force_reauth" st).
Proof.
  intros st.
  refine (proj1 (X15_missing_or_empty_remote_user
    Testsettings.SHIBBOLETH_ATTRIBUTE_MAP "shib_force_reauth" "REMOTE_USER"
    (Django.clean_username id) Django._remove_invalid_user (Django.auth_authenticate true Django.fields id)
    (Django.auth_login Django.NOW) st AnonymousUser _ _ _)).
  - reflexivity.
  - discriminate.
  - by right.
Defined.

(** [Alice] is logged in, the policy lower-cases the header: she is
    logged out before the attributes are parsed. *)
Lemma X16_witness :
  ∃ rest,
    trace (Django.process_request Policy.lower mixed_case).2
    = trace mixed_case
      ++ [EvRemoveInvalidUser; EvParseAttributes;
          EvSessionSet "shib"
            (SDict (parse_attributes Testsettings.SHIBBOLETH_ATTRIBUTE_MAP
                      (Django._remove_invalid_user
                         (req (popped "shib_force_reauth" mixed_case)))).1)]
      ++ rest.
Proof.
  assert (Hflag : ¬ session (req mixed_case) !! "shib_force_reauth"
                    = Some (SVal (PyBool true))) by (by vm_compute).
  assert (Hdiff : PyStr "Alice" ≠ PyStr "alice") by discriminate.
  assert (Hclean : Django.clean_username Policy.lower "Alice"
                     (req (popped "shib_force_reauth" mixed_case)) = Ok "alice")
    by (by vm_compute).
  exact (proj2 (proj1 (proj2 (X16_stale_user_is_removed_before_parsing
    Testsettings.SHIBBOLETH_ATTRIBUTE_MAP "shib_force_reauth" "REMOTE_USER"
    (Django.clean_username Policy.lower)
    Django._remove_invalid_user (Django.auth_authenticate true Django.fields Policy.lower)
    (Django.auth_login Django.NOW) mixed_case "Alice" Hflag eq_refl ltac:(discriminate)))
    alice (PyStr "Alice") "alice" eq_refl eq_refl Hclean Hdiff)).
Defined.

Lemma first_reach :
  locate_remote_user "shib_force_reauth" "REMOTE_USER" (Django.clean_username id)
    Django._remove_invalid_user first_login
  = (Ok (Some "u1@example.edu"), first_login).
Proof. by vm_compute. Qed.

Lemma first_valid :
  (parse_attributes Testsettings.SHIBBOLETH_ATTRIBUTE_MAP (req first_login)).2 = false.
Proof. by vm_compute. Qed.

Lemma first_auth :
  Django.auth_authenticate true Django.fields id (req (stored first_meta first_login))
    "u1@example.edu" first_meta (db first_login)
  = (Ok (Some first_user), first_db).
Proof. by vm_compute. Qed.

Lemma first_entered_eq :
  Django.auth_login Django.NOW first_user
    (set_user (AuthUser first_user) (req (stored first_meta first_login)), first_db)
  = (Ok tt, (first_entered.1, first_entered.2)).
Proof. by vm_compute. Qed.

(** The first login with the complete header set. *)
Lemma X17_witness :
  Django.process_request id first_login
  = (Ok tt,
     State first_entered.1 first_entered.2
           ((trace (stored first_meta first_login)
             ++ [EvAuthenticate "u1@example.edu" first_meta])
            ++ [EvLogin first_user; EvMakeProfile first_user; EvSetupSession])).
Proof.
  exact (proj1 (proj1 (X17_login_iff_authenticate_returns_a_user
    Testsettings.SHIBBOLETH_ATTRIBUTE_MAP "shib_force_reauth" "REMOTE_USER"
    (Django.clean_username id)
    Django._remove_invalid_user (Django.auth_authenticate true Django.fields id)
    (Django.auth_login Django.NOW) first_login first_login "u1@example.edu"
    first_reach first_valid) first_user first_db first_auth)
    first_entered.1 first_entered.2 first_entered_eq).
Defined.

(** The first login, then the same headers again. *)
Lemma X18_witness :
  let first := Django.process_request id first_login in
  let next := set_req (set_META all_headers (req first.2)) first.2 in
  first.1 = Ok tt
  ∧ (Django.process_request id next).1 = Ok tt
  ∧ trace (Django.process_request id next).2 = trace first.2
  ∧ db (Django.process_request id next).2 = db first.2.
Proof.
  intros first next.
  assert (Huser : ∃ u', user first_entered.1 = Some (AuthUser u')
                        ∧ get_username (AuthUser u') = Some (PyStr "u1@example.edu")).
  { eexists. split; by vm_compute. }
  destruct Huser as (u' & Huser & Hname).
  assert (Hclean : Django.clean_username id "u1@example.edu"
                     (set_session (delete "shib_force_reauth" (session first_entered.1))
                        (set_META all_headers first_entered.1))
                   = Ok "u1@example.edu") by (by vm_compute).
  pose proof (X18_request_after_login_is_fast_path
    Testsettings.SHIBBOLETH_ATTRIBUTE_MAP "shib_force_reauth" "REMOTE_USER"
    (Django.clean_username id)
    Django._remove_invalid_user (Django.auth_authenticate true Django.fields id)
    (Django.auth_login Django.NOW) first_login first_login "u1@example.edu"
    "u1@example.edu" first_user u' first_db first_entered.2 first_entered.1 all_headers
    first_reach first_valid first_auth first_entered_eq Huser
    ltac:(discriminate) eq_refl Hclean Hname)
    as (Hfirst & _ & _ & Hnext & Htrace & Hdb).
  split_and!; [exact Hfirst| |exact Htrace|exact Hdb].
  exact (f_equal fst Hnext).
Defined.

End MiddlewareExtras.
